(** * TerraSatch service provider: normalization pipeline

    A shallow embedding of [app/utils.py], [app/normalizers.py] and the
    ingest paths of [app/routes.py], over a model of the Python values a
    JSON request body decodes to, followed by the properties of the
    pipeline. *)

From Stdlib Require Import ZArith List String Ascii Bool Lia SpecFloat DecimalString.
Import ListNotations.

Set Warnings "-register-all".

Local Open Scope string_scope.
Local Open Scope Z_scope.
Local Open Scope list_scope.

Notation "a +++ b" := (String.append a b) (at level 60, right associativity).

(** ** Python values

    What [json.loads] produces: [None], booleans, unbounded integers,
    binary64 floats (Corelib's [spec_float] at precision 53), strings, lists
    and insertion-ordered dicts with string keys.  A character of a string
    stands for the code point of the same number, so the strings covered
    are those of code points below 256. *)

Inductive value : Type :=
| VNone
| VBool (b : bool)
| VInt (z : Z)
| VFloat (f : spec_float)
| VStr (s : string)
| VList (l : list value)
| VDict (d : list (string * value)).

Definition dict : Type := list (string * value).

Inductive exn_class : Type := ValueError | TypeError | OverflowError.

(** An exception: its class and [str(exc)].  The message of a builtin's
    [ValueError] or [TypeError] is left empty where the code catches every
    such exception. *)
Record exn : Type := mkExn { exn_cls : exn_class; exn_msg : string }.

Inductive result (A : Type) : Type :=
| Ok (a : A)
| Raise (e : exn).
Arguments Ok {A} a.
Arguments Raise {A} e.

Definition bind {A B : Type} (m : result A) (k : A -> result B) : result B :=
  match m with
  | Ok a => k a
  | Raise e => Raise e
  end.

Notation "x <- m ;; k" := (bind m (fun x => k))
  (at level 100, m at next level, right associativity).

Definition exn_class_eqb (a b : exn_class) : bool :=
  match a, b with
  | ValueError, ValueError | TypeError, TypeError | OverflowError, OverflowError => true
  | _, _ => false
  end.

(** [try: m  except classes: handler] *)
Definition try_except {A : Type} (m : result A) (classes : list exn_class) (handler : A) : result A :=
  match m with
  | Ok a => Ok a
  | Raise e => if existsb (exn_class_eqb (exn_cls e)) classes then Ok handler else Raise e
  end.

(** *** Truth value, [or], [is None], [isinstance] *)

Definition float_is_zero (f : spec_float) : bool :=
  match f with
  | S754_zero _ => true
  | _ => false
  end.

Definition truthy (v : value) : bool :=
  match v with
  | VNone => false
  | VBool b => b
  | VInt z => negb (z =? 0)
  | VFloat f => negb (float_is_zero f)
  | VStr s => negb (String.eqb s EmptyString)
  | VList l => match l with [] => false | _ :: _ => true end
  | VDict d => match d with [] => false | _ :: _ => true end
  end.

(** [a or b]: [a] when it is truthy, else [b], whatever [b] is. *)
Definition py_or (a b : value) : value := if truthy a then a else b.

Notation "a 'orelse' b" := (py_or a b) (at level 71, left associativity).

Definition is_none (v : value) : bool :=
  match v with
  | VNone => true
  | _ => false
  end.

Definition is_dict (v : value) : bool :=
  match v with
  | VDict _ => true
  | _ => false
  end.

(** *** Dicts *)

Fixpoint dict_lookup (d : dict) (k : string) : option value :=
  match d with
  | [] => None
  | (k', v) :: rest => if String.eqb k' k then Some v else dict_lookup rest k
  end.

(** [d.get(k)] *)
Definition dict_get (d : dict) (k : string) : value :=
  match dict_lookup d k with
  | Some v => v
  | None => VNone
  end.

(** [d[k] = v]: an existing key keeps its place, a new key goes last. *)
Fixpoint dict_set (d : dict) (k : string) (v : value) : dict :=
  match d with
  | [] => [(k, v)]
  | (k', v') :: rest =>
      if String.eqb k' k then (k, v) :: rest else (k', v') :: dict_set rest k v
  end.

Definition dict_keys (d : dict) : list string := map fst d.

(** The keys of a dict are pairwise distinct. *)
Definition dict_wf (d : dict) : Prop := NoDup (dict_keys d).

(** *** Strings: [strip], [lower], [str(int)], [repr(str)] *)

(** [c.isspace()] *)
Definition is_space (c : ascii) : bool :=
  let n := Z.of_nat (nat_of_ascii c) in
  ((9 <=? n) && (n <=? 13)) || ((28 <=? n) && (n <=? 32)) || (n =? 133) || (n =? 160).

(** The whitespace [int] skips around a literal: the separators 28 to 31
    are not part of it. *)
Definition is_int_space (c : ascii) : bool :=
  let n := Z.of_nat (nat_of_ascii c) in
  ((9 <=? n) && (n <=? 13)) || (n =? 32) || (n =? 133) || (n =? 160).

Fixpoint lstrip_by (space : ascii -> bool) (s : string) : string :=
  match s with
  | EmptyString => EmptyString
  | String c r => if space c then lstrip_by space r else s
  end.

Fixpoint rstrip_by (space : ascii -> bool) (s : string) : string :=
  match s with
  | EmptyString => EmptyString
  | String c r =>
      match rstrip_by space r with
      | EmptyString => if space c then EmptyString else String c EmptyString
      | r' => String c r'
      end
  end.

(** [s.strip()] *)
Definition strip (s : string) : string := rstrip_by is_space (lstrip_by is_space s).

Definition lower_char (c : ascii) : ascii :=
  let n := Z.of_nat (nat_of_ascii c) in
  if ((65 <=? n) && (n <=? 90)) || ((192 <=? n) && (n <=? 222) && negb (n =? 215))
  then ascii_of_nat (nat_of_ascii c + 32)
  else c.

Fixpoint lower (s : string) : string :=
  match s with
  | EmptyString => EmptyString
  | String c r => String (lower_char c) (lower r)
  end.

Definition str_of_Z (z : Z) : string := NilZero.string_of_int (Z.to_int z).

Definition hex_digit (n : Z) : ascii :=
  ascii_of_nat (Z.to_nat (if n <? 10 then 48 + n else 87 + n)).

Definition hex2 (c : ascii) : string :=
  let n := Z.of_nat (nat_of_ascii c) in
  String (hex_digit (n / 16)) (String (hex_digit (n mod 16)) EmptyString).

Definition squote : ascii := ascii_of_nat 39.
Definition dquote : ascii := ascii_of_nat 34.
Definition backslash : ascii := ascii_of_nat 92.

Fixpoint contains_char (c : ascii) (s : string) : bool :=
  match s with
  | EmptyString => false
  | String c' r => Ascii.eqb c c' || contains_char c r
  end.

Definition printable (c : ascii) : bool :=
  let n := Z.of_nat (nat_of_ascii c) in
  ((32 <=? n) && (n <? 127)) || ((161 <=? n) && negb (n =? 173)).

Definition repr_char (quote c : ascii) : string :=
  let n := Z.of_nat (nat_of_ascii c) in
  if Ascii.eqb c quote || Ascii.eqb c backslash then String backslash (String c EmptyString)
  else if n =? 9 then String backslash "t"
  else if n =? 10 then String backslash "n"
  else if n =? 13 then String backslash "r"
  else if printable c then String c EmptyString
  else String backslash ("x" +++ hex2 c).

Fixpoint repr_chars (quote : ascii) (s : string) : string :=
  match s with
  | EmptyString => EmptyString
  | String c r => repr_char quote c +++ repr_chars quote r
  end.

(** [repr(s)] of a string *)
Definition str_repr (s : string) : string :=
  let quote := if contains_char squote s && negb (contains_char dquote s) then dquote else squote in
  String quote (repr_chars quote s +++ String quote EmptyString).

Fixpoint join (sep : string) (l : list string) : string :=
  match l with
  | [] => EmptyString
  | [x] => x
  | x :: rest => x +++ sep +++ join sep rest
  end.

(** *** [int(str)] *)

Definition digit_val (c : ascii) : option Z :=
  let n := Z.of_nat (nat_of_ascii c) in
  if (48 <=? n) && (n <=? 57) then Some (n - 48) else None.

Inductive lex_state : Type := AtStart | AfterDigit | AfterUnderscore.

(** Decimal digits, single underscores allowed between two digits. *)
Fixpoint parse_digits (s : string) (acc : Z) (st : lex_state) : option Z :=
  match s with
  | EmptyString => match st with AfterDigit => Some acc | _ => None end
  | String c r =>
      match digit_val c with
      | Some d => parse_digits r (10 * acc + d) AfterDigit
      | None =>
          if Ascii.eqb c "_"
          then match st with AfterDigit => parse_digits r acc AfterUnderscore | _ => None end
          else None
      end
  end.

(** [int(s)] of a string, [None] for its [ValueError].  The interpreter's
    cap on the number of digits of a literal is not part of the model. *)
Definition int_of_str (s : string) : option Z :=
  match rstrip_by is_int_space (lstrip_by is_int_space s) with
  | String "-" r => option_map Z.opp (parse_digits r 0 AtStart)
  | String "+" r => parse_digits r 0 AtStart
  | t => parse_digits t 0 AtStart
  end.

(** *** Floats *)

Definition float_zero : spec_float := S754_zero false.
Definition float_one : spec_float := binary_normalize 53 1024 1 0 false.

(** [float(z)] of an integer: nearest binary64, ties to even;
    [OverflowError] when out of range. *)
Definition float_of_int (z : Z) : result spec_float :=
  match binary_normalize 53 1024 z 0 false with
  | S754_infinity _ => Raise (mkExn OverflowError "int too large to convert to float")
  | f => Ok f
  end.

(** [int(f)] of a float: truncation toward zero. *)
Definition int_of_float (f : spec_float) : result Z :=
  match f with
  | S754_zero _ => Ok 0
  | S754_finite s m e =>
      let a := if 0 <=? e then Z.pos m * 2 ^ e else Z.pos m / 2 ^ (- e) in
      Ok (if s then - a else a)
  | S754_infinity _ => Raise (mkExn OverflowError "cannot convert float infinity to integer")
  | S754_nan => Raise (mkExn ValueError "cannot convert float NaN to integer")
  end.

(** *** Datetimes *)

(** An offset-aware or naive [datetime]; [tzinfo] holds the UTC offset in
    microseconds. *)
Record datetime : Type := mkDatetime {
  year : Z; month : Z; day : Z;
  hour : Z; minute : Z; second : Z; microsecond : Z;
  tzinfo : option Z
}.

Definition utc : Z := 0.

(** [dt.replace(tzinfo=tz)] *)
Definition replace_tzinfo (dt : datetime) (tz : Z) : datetime :=
  mkDatetime (year dt) (month dt) (day dt) (hour dt) (minute dt) (second dt)
             (microsecond dt) (Some tz).

Fixpoint zeros (n : nat) : string :=
  match n with
  | O => EmptyString
  | S n' => String "0" (zeros n')
  end.

(** ["%0wd" % z] *)
Definition zpad (w : nat) (z : Z) : string :=
  if z <? 0
  then
    let digits := str_of_Z (- z) in
    "-" +++ zeros (w - 1 - String.length digits) +++ digits
  else
    let digits := str_of_Z z in
    zeros (w - String.length digits) +++ digits.

Definition format_offset (off : Z) : string :=
  let sign := if off <? 0 then "-" else "+" in
  let a := Z.abs off in
  let hh := a / 3600000000 in
  let mm := (a mod 3600000000) / 60000000 in
  let ss := (a mod 60000000) / 1000000 in
  let us := a mod 1000000 in
  sign +++ zpad 2 hh +++ ":" +++ zpad 2 mm
    +++ (if (ss =? 0) && (us =? 0) then EmptyString
         else ":" +++ zpad 2 ss +++ (if us =? 0 then EmptyString else "." +++ zpad 6 us)).

(** [dt.isoformat()] *)
Definition isoformat (dt : datetime) : string :=
  zpad 4 (year dt) +++ "-" +++ zpad 2 (month dt) +++ "-" +++ zpad 2 (day dt)
    +++ "T" +++ zpad 2 (hour dt) +++ ":" +++ zpad 2 (minute dt) +++ ":" +++ zpad 2 (second dt)
    +++ (if microsecond dt =? 0 then EmptyString else "." +++ zpad 6 (microsecond dt))
    +++ match tzinfo dt with
        | None => EmptyString
        | Some off => format_offset off
        end.

(** The proleptic Gregorian date of a day number counted from 1970-01-01. *)
Definition civil_from_days (days : Z) : Z * Z * Z :=
  let z := days + 719468 in
  let era := z / 146097 in
  let doe := z - era * 146097 in
  let yoe := (doe - doe / 1460 + doe / 36524 - doe / 146096) / 365 in
  let doy := doe - (365 * yoe + yoe / 4 - yoe / 100) in
  let mp := (5 * doy + 2) / 153 in
  let d := doy - (153 * mp + 2) / 5 + 1 in
  let m := if mp <? 10 then mp + 3 else mp - 9 in
  let y := yoe + era * 400 + (if m <=? 2 then 1 else 0) in
  (y, m, d).

Definition min_timestamp : Z := -62135596800.
Definition max_timestamp : Z := 253402300799.

(** [datetime.fromtimestamp(z, tz=timezone.utc)] of an integer; [None]
    stands for the [OSError], [ValueError] or [OverflowError] raised outside
    the years 1 to 9999. *)
Definition fromtimestamp_int (z : Z) : option datetime :=
  if (min_timestamp <=? z) && (z <=? max_timestamp)
  then
    let '(y, m, d) := civil_from_days (z / 86400) in
    let s := z mod 86400 in
    Some (mkDatetime y m d (s / 3600) ((s mod 3600) / 60) (s mod 60) 0 (Some utc))
  else None.

(** ** The rest of the runtime

    The library functions whose algorithms are not reproduced here:
    [repr] of a float, [float] of a string, [datetime.strptime],
    [datetime.fromtimestamp] of a float, and the two effects of the request
    boundary, [uuid.uuid4] and the clock, as oracles indexed by the number
    of records written so far.  Every statement below holds for every such
    runtime. *)
Class PyRuntime : Type := {
  float_repr : spec_float -> string;
  float_of_str : string -> option spec_float;
  strptime : string -> string -> option datetime;
  utc_of_float_timestamp : spec_float -> option datetime;
  uuid4 : nat -> string;
  now_iso : nat -> string
}.

(** ** [app/schemas.py] and [app/models.py] *)

Module IngestRequest.
Record t : Type := mk {
  provider_id : string;
  provider_name : string;
  record_type : string;
  payload : dict
}.
End IngestRequest.

(** A row of [normalized_records].  The four [_json] columns hold the
    [json.dumps] text the route writes. *)
Module NormalizedRecord.
Record t : Type := mk {
  record_id : string;
  provider_id : string;
  provider_name : string;
  record_type : string;
  region : option string;
  location_json : string;
  event_time : option string;
  ingested_at : string;
  severity : string;
  metrics_json : string;
  summary : string;
  raw_payload_json : string;
  quality_flags_json : string
}.
End NormalizedRecord.

(** The response schema of a row is read back from the row alone (the
    [_json] columns through [json.loads]); it is represented by the row. *)
Module NormalizedRecordSchema.
Record t : Type := mk { row : NormalizedRecord.t }.
End NormalizedRecordSchema.

Module BatchRecordResult.
Record t : Type := mk {
  success : bool;
  record : option NormalizedRecordSchema.t;
  error : option string
}.
End BatchRecordResult.

Module BatchIngestResponse.
Record t : Type := mk {
  total_count : Z;
  success_count : Z;
  failed_count : Z;
  results : list BatchRecordResult.t
}.
End BatchIngestResponse.

(** [quality_flags] repeats the flags of the schema, which reads them from
    the row's JSON text; it holds that text. *)
Module IngestResponse.
Record t : Type := mk {
  record : NormalizedRecordSchema.t;
  quality_flags : string
}.
End IngestResponse.

(** What a route gives back: its response, the [HTTPException] it raises,
    or an exception it lets through. *)
Inductive outcome (A : Type) : Type :=
| Returned (a : A)
| HTTPException (status_code : Z) (detail : string)
| Unhandled (e : exn).
Arguments Returned {A} a.
Arguments HTTPException {A} status_code detail.
Arguments Unhandled {A} e.

Section Pipeline.

Context {runtime : PyRuntime}.

(** ** [str], [int], [float] and [json.dumps] of a value *)

Fixpoint py_repr (v : value) : string :=
  match v with
  | VNone => "None"
  | VBool b => if b then "True" else "False"
  | VInt z => str_of_Z z
  | VFloat f => float_repr f
  | VStr s => str_repr s
  | VList l => "[" +++ join ", " (map py_repr l) +++ "]"
  | VDict d => "{" +++ join ", " (map (fun kv => match kv with
                                                 | (k, x) => str_repr k +++ ": " +++ py_repr x
                                                 end) d) +++ "}"
  end.

(** [str(v)] *)
Definition py_str (v : value) : string :=
  match v with
  | VStr s => s
  | _ => py_repr v
  end.

(** [int(v)] *)
Definition py_int (v : value) : result Z :=
  match v with
  | VInt z => Ok z
  | VBool b => Ok (Z.b2z b)
  | VFloat f => int_of_float f
  | VStr s =>
      match int_of_str s with
      | Some z => Ok z
      | None => Raise (mkExn ValueError EmptyString)
      end
  | VNone | VList _ | VDict _ => Raise (mkExn TypeError EmptyString)
  end.

(** [float(v)] *)
Definition py_float (v : value) : result spec_float :=
  match v with
  | VFloat f => Ok f
  | VInt z => float_of_int z
  | VBool b => Ok (if b then float_one else float_zero)
  | VStr s =>
      match float_of_str s with
      | Some f => Ok f
      | None => Raise (mkExn ValueError EmptyString)
      end
  | VNone | VList _ | VDict _ => Raise (mkExn TypeError EmptyString)
  end.

Definition json_escape_char (c : ascii) : string :=
  let n := Z.of_nat (nat_of_ascii c) in
  if Ascii.eqb c dquote || Ascii.eqb c backslash then String backslash (String c EmptyString)
  else if n =? 10 then String backslash "n"
  else if n =? 13 then String backslash "r"
  else if n =? 9 then String backslash "t"
  else if n =? 8 then String backslash "b"
  else if n =? 12 then String backslash "f"
  else if (32 <=? n) && (n <=? 126) then String c EmptyString
  else String backslash ("u00" +++ hex2 c).

Fixpoint json_escape (s : string) : string :=
  match s with
  | EmptyString => EmptyString
  | String c r => json_escape_char c +++ json_escape r
  end.

Definition json_string (s : string) : string :=
  String dquote (json_escape s +++ String dquote EmptyString).

Definition json_float (f : spec_float) : string :=
  match f with
  | S754_nan => "NaN"
  | S754_infinity false => "Infinity"
  | S754_infinity true => "-Infinity"
  | _ => float_repr f
  end.

(** [json.dumps(v)] with the default separators and [ensure_ascii]. *)
Fixpoint json_dumps (v : value) : string :=
  match v with
  | VNone => "null"
  | VBool b => if b then "true" else "false"
  | VInt z => str_of_Z z
  | VFloat f => json_float f
  | VStr s => json_string s
  | VList l => "[" +++ join ", " (map json_dumps l) +++ "]"
  | VDict d => "{" +++ join ", " (map (fun kv => match kv with
                                                 | (k, x) => json_string k +++ ": " +++ json_dumps x
                                                 end) d) +++ "}"
  end.

(** ** [app/utils.py] *)

Definition SEVERITY_MAP : list (string * string) :=
  [ ("1", "low");
    ("2", "moderate");
    ("3", "considerable");
    ("4", "high");
    ("5", "extreme");
    ("low", "low");
    ("moderate", "moderate");
    ("considerable", "considerable");
    ("high", "high");
    ("extreme", "extreme");
    ("no rating", "unknown");
    ("none", "unknown") ].

Fixpoint table_get {A : Type} (t : list (string * A)) (k : string) : option A :=
  match t with
  | [] => None
  | (k', a) :: rest => if String.eqb k' k then Some a else table_get rest k
  end.

Definition normalize_severity (value : option string) : string :=
  match value with
  | None => "unknown"
  | Some s =>
      let normalized := lower (strip s) in
      match table_get SEVERITY_MAP normalized with
      | Some level => level
      | None => "unknown"
      end
  end.

Definition formats : list string :=
  [ "%Y-%m-%dT%H:%M:%SZ";
    "%Y-%m-%dT%H:%M:%S%z";
    "%Y-%m-%dT%H:%M:%S.%f%z";
    "%Y-%m-%dT%H:%M:%S.%fZ";
    "%Y-%m-%d %H:%M:%S";
    "%Y-%m-%d" ].

(** [isinstance(v, (int, float))]: a [bool] is an [int]. *)
Definition is_number (v : value) : bool :=
  match v with
  | VInt _ | VBool _ | VFloat _ => true
  | _ => false
  end.

(** [datetime.fromtimestamp(v, tz=timezone.utc)] of a number; [None] stands
    for an [OSError], [ValueError] or [OverflowError]. *)
Definition fromtimestamp (v : value) : option datetime :=
  match v with
  | VInt z => fromtimestamp_int z
  | VBool b => fromtimestamp_int (Z.b2z b)
  | VFloat f => option_map (fun dt => replace_tzinfo dt utc) (utc_of_float_timestamp f)
  | _ => None
  end.

(** The [for fmt in formats] loop of [parse_timestamp]. *)
Fixpoint try_formats (value : string) (fmts : list string) : option string :=
  match fmts with
  | [] => None
  | fmt :: rest =>
      match strptime value fmt with
      | Some dt =>
          let dt := match tzinfo dt with
                    | None => replace_tzinfo dt utc
                    | Some _ => dt
                    end in
          Some (isoformat dt)
      | None => try_formats value rest
      end
  end.

Definition parse_timestamp (value : value) : option string :=
  if is_none value then None
  else if is_number value then
    match fromtimestamp value with
    | Some dt => Some (isoformat dt)
    | None => None
    end
  else
    match value with
    | VStr s => try_formats (strip s) formats
    | _ => None
    end.

Definition safe_str (value : value) : string :=
  if is_none value then EmptyString else strip (py_str value).

(** [try: x = float(x) if x is not None else None
     except (ValueError, TypeError): x = None] *)
Definition coerce_float (x : value) : result (option spec_float) :=
  try_except
    (if is_none x then Ok None else f <- py_float x ;; Ok (Some f))
    [ValueError; TypeError] None.

Definition extract_coordinates (payload : dict)
  : result (option spec_float * option spec_float) :=
  let lat := dict_get payload "lat" orelse dict_get payload "latitude" in
  let lon := dict_get payload "lon" orelse dict_get payload "longitude" in
  let '(lat, lon) :=
    if is_none lat && is_none lon then
      let loc := dict_get payload "location" orelse dict_get payload "coordinates" in
      match loc with
      | VDict loc =>
          (dict_get loc "lat" orelse dict_get loc "latitude",
           dict_get loc "lon" orelse dict_get loc "longitude")
      | _ => (lat, lon)
      end
    else (lat, lon) in
  lat <- coerce_float lat ;;
  lon <- coerce_float lon ;;
  Ok (lat, lon).

Definition is_metric_scalar (v : value) : bool :=
  match v with
  | VList _ | VDict _ => false
  | _ => true
  end.

(** The [for k, v in metrics.items()] loop of [validate_metrics]. *)
Fixpoint validate_loop (items : dict) (cleaned : dict) (flags : list string)
  : dict * list string :=
  match items with
  | [] => (cleaned, flags)
  | (k, v) :: rest =>
      if negb (is_metric_scalar v)
      then validate_loop rest cleaned (flags ++ ["invalid_metric_type"])
      else validate_loop rest (dict_set cleaned k v) flags
  end.

Definition validate_metrics (metrics : dict) : dict * list string :=
  validate_loop metrics [] [].

(** ** [app/normalizers.py] *)

Record location : Type := mkLocation {
  loc_name : option string;
  loc_lat : option spec_float;
  loc_lon : option spec_float;
  loc_elevation_ft : option Z
}.

(** The record a normalizer returns. *)
Record fragment : Type := mkFragment {
  provider_id : string;
  provider_name : string;
  record_type : string;
  region : option string;
  frag_location : location;
  event_time : option string;
  severity : string;
  metrics : dict;
  summary : string;
  quality_flags : list string
}.

(** [record["quality_flags"] = flags] *)
Definition set_quality_flags (record : fragment) (flags : list string) : fragment :=
  mkFragment (provider_id record) (provider_name record) (record_type record)
             (region record) (frag_location record) (event_time record)
             (severity record) (metrics record) (summary record) flags.

(** [s or None] of a string *)
Definition str_or_none (s : string) : option string :=
  if String.eqb s EmptyString then None else Some s.

(** [try: x = int(x) if x is not None else None
     except (ValueError, TypeError): x = None] *)
Definition coerce_int (x : value) : result (option Z) :=
  try_except
    (if is_none x then Ok None else z <- py_int x ;; Ok (Some z))
    [ValueError; TypeError] None.

Definition _build_location (payload : dict) : result location :=
  coords <- extract_coordinates payload ;;
  let '(lat, lon) := coords in
  let loc_block :=
    dict_get payload "location" orelse dict_get payload "coordinates" orelse VDict [] in
  let '(loc_name, elevation_ft) :=
    match loc_block with
    | VDict loc_block =>
        (str_or_none (safe_str (dict_get loc_block "name")),
         dict_get loc_block "elevation_ft" orelse dict_get loc_block "elevation")
    | _ => (None, VNone)
    end in
  let loc_name :=
    match loc_name with
    | Some n => Some n
    | None => str_or_none (safe_str (dict_get payload "location_name"))
    end in
  let elevation_ft :=
    if is_none elevation_ft
    then dict_get payload "elevation_ft" orelse dict_get payload "elevation"
    else elevation_ft in
  elevation_ft <- coerce_int elevation_ft ;;
  Ok (mkLocation loc_name lat lon elevation_ft).

Definition is_empty_opt (s : option string) : bool :=
  match s with
  | None => true
  | Some t => String.eqb t EmptyString
  end.

Definition _collect_quality_flags (record : fragment) : list string :=
  let flags := [] in
  let loc := frag_location record in
  let flags :=
    if match loc_lat loc with None => true | Some _ => false end
       || match loc_lon loc with None => true | Some _ => false end
    then flags ++ ["missing_coordinates"] else flags in
  let flags :=
    if is_empty_opt (event_time record)
    then flags ++ ["missing_timestamp"] else flags in
  let flags :=
    if String.eqb (severity record) "unknown"
    then flags ++ ["unknown_severity"] else flags in
  let flags :=
    if String.eqb (strip (summary record)) EmptyString
    then flags ++ ["empty_summary"] else flags in
  flags.

(** [list(dict.fromkeys(flags))] *)
Definition dedup (flags : list string) : list string :=
  dict_keys (fold_left (fun d k => dict_set d k VNone) flags []).

(** *** The objects [raw_metrics] can name

    [raw_metrics = payload.get("metrics") or {}] binds [raw_metrics] either
    to the dict object stored under [payload["metrics"]] or to a new dict.
    A store holds the caller's payload object and the new dict; a write
    through [raw_metrics] lands in the object it names. *)

Inductive ref : Type := PayloadMetrics | Fresh.

Record store : Type := mkStore { payload_obj : dict; fresh_obj : dict }.

Definition deref (s : store) (r : ref) : dict :=
  match r with
  | Fresh => fresh_obj s
  | PayloadMetrics =>
      match dict_get (payload_obj s) "metrics" with
      | VDict d => d
      | _ => []
      end
  end.

(** [r[k] = v] *)
Definition setitem (s : store) (r : ref) (k : string) (v : value) : store :=
  match r with
  | Fresh => mkStore (payload_obj s) (dict_set (fresh_obj s) k v)
  | PayloadMetrics =>
      mkStore (dict_set (payload_obj s) "metrics" (VDict (dict_set (deref s r) k v)))
              (fresh_obj s)
  end.

(** [raw_metrics = payload.get("metrics") or {}
     if not isinstance(raw_metrics, dict): raw_metrics = {}] *)
Definition bind_raw_metrics (payload : dict) : ref :=
  let m := dict_get payload "metrics" in
  if truthy m then (if is_dict m then PayloadMetrics else Fresh) else Fresh.

(** [for key in keys: val = payload.get(key)
                      if val is not None: raw_metrics[key] = val] *)
Fixpoint overlay (keys : list string) (raw_metrics : ref) (s : store) : store :=
  match keys with
  | [] => s
  | key :: rest =>
      let val := dict_get (payload_obj s) key in
      overlay rest raw_metrics
        (if negb (is_none val) then setitem s raw_metrics key val else s)
  end.

(** [str(raw_severity) if raw_severity is not None else None] *)
Definition severity_arg (raw_severity : value) : option string :=
  if negb (is_none raw_severity) then Some (py_str raw_severity) else None.

(** Each normalizer returns its record and the contents of the caller's
    payload object when it returns. *)
Definition normalize_bulletin (payload provider_meta : dict) : result (fragment * dict) :=
  let raw_severity :=
    dict_get payload "danger"
    orelse dict_get payload "avalanche_danger"
    orelse dict_get payload "severity"
    orelse dict_get payload "danger_level" in
  let raw_time :=
    dict_get payload "issued_at"
    orelse dict_get payload "timestamp"
    orelse dict_get payload "valid_time"
    orelse dict_get payload "date" in
  let summary :=
    safe_str (dict_get payload "summary"
              orelse dict_get payload "headline"
              orelse dict_get payload "description"
              orelse dict_get payload "text"
              orelse VStr EmptyString) in
  let region :=
    str_or_none (safe_str (dict_get payload "region"
                           orelse dict_get payload "zone"
                           orelse dict_get payload "area"
                           orelse VStr EmptyString)) in
  let raw_metrics := bind_raw_metrics payload in
  let s := overlay ["rose"; "aspects"; "elevation_bands"; "travel_advice"]
                   raw_metrics (mkStore payload []) in
  let '(metrics, metric_flags) := validate_metrics (deref s raw_metrics) in
  let payload := payload_obj s in
  loc <- _build_location payload ;;
  let record :=
    mkFragment (safe_str (dict_get provider_meta "provider_id"))
               (safe_str (dict_get provider_meta "provider_name"))
               "bulletin"
               region
               loc
               (parse_timestamp raw_time)
               (normalize_severity (severity_arg raw_severity))
               metrics
               summary
               [] in
  let flags := _collect_quality_flags record ++ metric_flags in
  Ok (set_quality_flags record (dedup flags), payload).

Definition normalize_observation (payload provider_meta : dict) : result (fragment * dict) :=
  let raw_severity :=
    dict_get payload "severity"
    orelse dict_get payload "danger"
    orelse dict_get payload "hazard_level"
    orelse dict_get payload "risk" in
  let raw_time :=
    dict_get payload "observed_at"
    orelse dict_get payload "timestamp"
    orelse dict_get payload "date"
    orelse dict_get payload "time" in
  let summary :=
    safe_str (dict_get payload "summary"
              orelse dict_get payload "notes"
              orelse dict_get payload "description"
              orelse dict_get payload "observation"
              orelse VStr EmptyString) in
  let region :=
    str_or_none (safe_str (dict_get payload "region"
                           orelse dict_get payload "zone"
                           orelse dict_get payload "area"
                           orelse VStr EmptyString)) in
  let raw_metrics := bind_raw_metrics payload in
  let s := overlay ["snow_depth_cm"; "new_snow_cm"; "wind_speed_mph"; "temperature_f"; "aspect"; "slope_angle"]
                   raw_metrics (mkStore payload []) in
  let '(metrics, metric_flags) := validate_metrics (deref s raw_metrics) in
  let payload := payload_obj s in
  loc <- _build_location payload ;;
  let record :=
    mkFragment (safe_str (dict_get provider_meta "provider_id"))
               (safe_str (dict_get provider_meta "provider_name"))
               "observation"
               region
               loc
               (parse_timestamp raw_time)
               (normalize_severity (severity_arg raw_severity))
               metrics
               summary
               [] in
  let flags := _collect_quality_flags record ++ metric_flags in
  Ok (set_quality_flags record (dedup flags), payload).

Definition normalize_weather (payload provider_meta : dict) : result (fragment * dict) :=
  let raw_severity :=
    dict_get payload "severity"
    orelse dict_get payload "alert_level"
    orelse dict_get payload "warning_level" in
  let raw_time :=
    dict_get payload "recorded_at"
    orelse dict_get payload "timestamp"
    orelse dict_get payload "observation_time"
    orelse dict_get payload "time"
    orelse dict_get payload "date" in
  let summary :=
    safe_str (dict_get payload "summary"
              orelse dict_get payload "conditions"
              orelse dict_get payload "description"
              orelse VStr EmptyString) in
  let region :=
    str_or_none (safe_str (dict_get payload "region"
                           orelse dict_get payload "zone"
                           orelse dict_get payload "station_region"
                           orelse VStr EmptyString)) in
  let raw_metrics := bind_raw_metrics payload in
  let s := overlay ["temperature_f"; "temperature_c"; "wind_speed_mph"; "wind_gust_mph"; "wind_direction"; "relative_humidity"; "snow_depth_cm"; "new_snow_cm"; "pressure_mb"; "visibility_miles"]
                   raw_metrics (mkStore payload []) in
  let '(metrics, metric_flags) := validate_metrics (deref s raw_metrics) in
  let payload := payload_obj s in
  loc <- _build_location payload ;;
  let record :=
    mkFragment (safe_str (dict_get provider_meta "provider_id"))
               (safe_str (dict_get provider_meta "provider_name"))
               "weather"
               region
               loc
               (parse_timestamp raw_time)
               (normalize_severity (severity_arg raw_severity))
               metrics
               summary
               [] in
  let flags := _collect_quality_flags record ++ metric_flags in
  Ok (set_quality_flags record (dedup flags), payload).

Definition normalizer : Type := dict -> dict -> result (fragment * dict).

Definition NORMALIZERS : list (string * normalizer) :=
  [ ("bulletin", normalize_bulletin);
    ("observation", normalize_observation);
    ("weather", normalize_weather) ].

Definition dispatch_normalizer (record_type : string) (payload provider_meta : dict)
  : result (fragment * dict) :=
  match table_get NORMALIZERS record_type with
  | None =>
      Raise (mkExn ValueError
               ("Unsupported record_type: '" +++ record_type +++ "'. Supported: "
                  +++ py_str (VList (map VStr (map fst NORMALIZERS)))))
  | Some normalizer => normalizer payload provider_meta
  end.

(** ** The ingest paths of [app/routes.py] *)

(** Modelled from the spec: the database session, whose module
    [app/database.py] is not among the sources.  It is the persistence
    store that accepts a record and reads it back: the rows written so far,
    oldest first. *)
Definition Session : Type := list NormalizedRecord.t.

Definition value_of_opt {A : Type} (f : A -> value) (o : option A) : value :=
  match o with
  | Some a => f a
  | None => VNone
  end.

(** The dict [_build_location] returns, as a value. *)
Definition location_value (loc : location) : value :=
  VDict [ ("name", value_of_opt VStr (loc_name loc));
          ("lat", value_of_opt VFloat (loc_lat loc));
          ("lon", value_of_opt VFloat (loc_lon loc));
          ("elevation_ft", value_of_opt VInt (loc_elevation_ft loc)) ].

Definition _record_to_schema (record : NormalizedRecord.t) : NormalizedRecordSchema.t :=
  NormalizedRecordSchema.mk record.

(** [db.add], [db.commit] and [db.refresh] append the row and return it;
    [req.payload] is read for the raw payload column after the normalizer
    has run on it. *)
Definition _process_ingest (req : IngestRequest.t) (db : Session)
  : result NormalizedRecord.t * Session :=
  let provider_meta :=
    [ ("provider_id", VStr (IngestRequest.provider_id req));
      ("provider_name", VStr (IngestRequest.provider_name req)) ] in
  match dispatch_normalizer (IngestRequest.record_type req)
                            (IngestRequest.payload req) provider_meta with
  | Raise exc => (Raise exc, db)
  | Ok (normalized, payload) =>
      let record_id := uuid4 (List.length db) in
      let ingested_at := now_iso (List.length db) in
      let db_record :=
        NormalizedRecord.mk
          record_id
          (provider_id normalized)
          (provider_name normalized)
          (record_type normalized)
          (region normalized)
          (json_dumps (location_value (frag_location normalized)))
          (event_time normalized)
          ingested_at
          (severity normalized)
          (json_dumps (VDict (metrics normalized)))
          (summary normalized)
          (json_dumps (VDict payload))
          (json_dumps (VList (map VStr (quality_flags normalized)))) in
      (Ok db_record, db ++ [db_record])
  end.

(** The [for item in req.records] loop of [ingest_batch]. *)
Fixpoint batch_loop (records : list IngestRequest.t) (db : Session)
                    (results : list BatchRecordResult.t) (success_count : Z)
  : list BatchRecordResult.t * Z * Session :=
  match records with
  | [] => (results, success_count, db)
  | item :: rest =>
      match _process_ingest item db with
      | (Ok db_record, db) =>
          let schema := _record_to_schema db_record in
          batch_loop rest db
            (results ++ [BatchRecordResult.mk true (Some schema) None])
            (success_count + 1)
      | (Raise exc, db) =>
          batch_loop rest db
            (results ++ [BatchRecordResult.mk false None (Some (exn_msg exc))])
            success_count
      end
  end.

Definition ingest_batch (records : list IngestRequest.t) (db : Session)
  : BatchIngestResponse.t * Session :=
  let '(results, success_count, db) := batch_loop records db [] 0 in
  (BatchIngestResponse.mk (Z.of_nat (List.length records))
                          success_count
                          (Z.of_nat (List.length records) - success_count)
                          results,
   db).


(** [db.query(NormalizedRecord).filter(record_id == ...).first()] *)
Definition get_record (record_id : string) (db : Session)
  : outcome NormalizedRecordSchema.t :=
  match find (fun r => String.eqb (NormalizedRecord.record_id r) record_id) db with
  | None => HTTPException 404 "Record not found"
  | Some record => Returned (_record_to_schema record)
  end.

(** ** The three normalizers as one, by its key lists

    The three normalizers differ in their record type and key lists only;
    [normalize_with] is their common shape, used to state and prove the
    properties once. *)

Record config : Type := mkConfig {
  cfg_severity_keys : list string;
  cfg_time_keys : list string;
  cfg_summary_keys : list string;
  cfg_region_keys : list string;
  cfg_metric_keys : list string
}.

(** [payload.get(k1) or payload.get(k2) or ...] *)
Definition first_truthy (payload : dict) (keys : list string) : value :=
  match keys with
  | [] => VNone
  | k :: rest => fold_left (fun acc k' => acc orelse dict_get payload k') rest (dict_get payload k)
  end.

(** The dict [raw_metrics] names when the overlay loop is over. *)
Definition raw_metrics_of (keys : list string) (payload : dict) : dict :=
  let r := bind_raw_metrics payload in
  deref (overlay keys r (mkStore payload [])) r.

(** The caller's payload object when the overlay loop is over. *)
Definition payload_after (keys : list string) (payload : dict) : dict :=
  payload_obj (overlay keys (bind_raw_metrics payload) (mkStore payload [])).

Definition normalize_with (kind : string) (c : config) (payload provider_meta : dict)
  : result (fragment * dict) :=
  let raw_severity := first_truthy payload (cfg_severity_keys c) in
  let raw_time := first_truthy payload (cfg_time_keys c) in
  let summary := safe_str (first_truthy payload (cfg_summary_keys c) orelse VStr EmptyString) in
  let region :=
    str_or_none (safe_str (first_truthy payload (cfg_region_keys c) orelse VStr EmptyString)) in
  let '(metrics, metric_flags) := validate_metrics (raw_metrics_of (cfg_metric_keys c) payload) in
  let payload := payload_after (cfg_metric_keys c) payload in
  loc <- _build_location payload ;;
  let record :=
    mkFragment (safe_str (dict_get provider_meta "provider_id"))
               (safe_str (dict_get provider_meta "provider_name"))
               kind region loc
               (parse_timestamp raw_time)
               (normalize_severity (severity_arg raw_severity))
               metrics summary [] in
  Ok (set_quality_flags record (dedup (_collect_quality_flags record ++ metric_flags)),
      payload).

Definition CONFIGS : list (string * config) :=
  [ ("bulletin",
     mkConfig ["danger"; "avalanche_danger"; "severity"; "danger_level"]
              ["issued_at"; "timestamp"; "valid_time"; "date"]
              ["summary"; "headline"; "description"; "text"]
              ["region"; "zone"; "area"]
              ["rose"; "aspects"; "elevation_bands"; "travel_advice"]);
    ("observation",
     mkConfig ["severity"; "danger"; "hazard_level"; "risk"]
              ["observed_at"; "timestamp"; "date"; "time"]
              ["summary"; "notes"; "description"; "observation"]
              ["region"; "zone"; "area"]
              ["snow_depth_cm"; "new_snow_cm"; "wind_speed_mph"; "temperature_f";
               "aspect"; "slope_angle"]);
    ("weather",
     mkConfig ["severity"; "alert_level"; "warning_level"]
              ["recorded_at"; "timestamp"; "observation_time"; "time"; "date"]
              ["summary"; "conditions"; "description"]
              ["region"; "zone"; "station_region"]
              ["temperature_f"; "temperature_c"; "wind_speed_mph"; "wind_gust_mph";
               "wind_direction"; "relative_humidity"; "snow_depth_cm"; "new_snow_cm";
               "pressure_mb"; "visibility_miles"]) ].

(** ** Vocabulary of the statements *)

Definition flag_if (b : bool) (flag : string) : list string :=
  if b then [flag] else [].

Definition is_null {A : Type} (o : option A) : bool :=
  match o with
  | None => true
  | Some _ => false
  end.

(** The four quality conditions of a record, in their order. *)
Definition base_flags (frag : fragment) : list string :=
  flag_if (is_null (loc_lat (frag_location frag)) || is_null (loc_lon (frag_location frag)))
          "missing_coordinates"
  ++ flag_if (is_empty_opt (event_time frag)) "missing_timestamp"
  ++ flag_if (String.eqb (severity frag) "unknown") "unknown_severity"
  ++ flag_if (String.eqb (strip (summary frag)) EmptyString) "empty_summary".

(** [true] when [k] is one of [keys]. *)
Definition mem (k : string) (keys : list string) : bool :=
  existsb (String.eqb k) keys.

(** The payload's [metrics] entry when it is a mapping, else the empty
    mapping. *)
Definition metrics_base (payload : dict) : dict :=
  match dict_get payload "metrics" with
  | VDict d => d
  | _ => []
  end.

(** The value a key has once the top-level metric keys are laid over the
    base: the top-level value when the key is listed and holds a non-null
    value, else the base's. *)
Definition overlaid (keys : list string) (payload : dict) (k : string) : option value :=
  if mem k keys && negb (is_none (dict_get payload k))
  then Some (dict_get payload k)
  else dict_lookup (metrics_base payload) k.

Definition keep_scalar (o : option value) : option value :=
  match o with
  | Some v => if is_metric_scalar v then Some v else None
  | None => None
  end.

(** The timestamp given to a datetime that may lack a timezone. *)
Definition assume_utc (dt : datetime) : datetime :=
  match tzinfo dt with
  | None => replace_tzinfo dt utc
  | Some _ => dt
  end.

Fixpoint ends_with (suffix s : string) : bool :=
  String.eqb s suffix
  || match s with
     | EmptyString => false
     | String _ r => ends_with suffix r
     end.


Definition location_block (payload : dict) : value :=
  if truthy (dict_get payload "location") then dict_get payload "location"
  else if truthy (dict_get payload "coordinates") then dict_get payload "coordinates"
  else VDict [].



Definition remove_nth {A : Type} (k : nat) (l : list A) : list A :=
  firstn k l ++ skipn (S k) l.

Definition provider_meta_of (req : IngestRequest.t) : dict :=
  [ ("provider_id", VStr (IngestRequest.provider_id req));
    ("provider_name", VStr (IngestRequest.provider_name req)) ].

(** The outcome of the dispatcher on one request. *)
Definition dispatched (req : IngestRequest.t) : result (fragment * dict) :=
  dispatch_normalizer (IngestRequest.record_type req) (IngestRequest.payload req)
                      (provider_meta_of req).

(** One step of first-occurrence deduplication. *)
Definition add_key (acc : list string) (k : string) : list string :=
  if mem k acc then acc else acc ++ [k].

(** The entries [validate_metrics] drops, and those it keeps. *)
Definition dropped (kv : string * value) : bool := negb (is_metric_scalar (snd kv)).
Definition kept (kv : string * value) : bool := is_metric_scalar (snd kv).

(** The row written for a record normalized from a request, as the [n]-th
    row of the session. *)
Definition row_for (n : nat) (normalized : fragment) (payload : dict) : NormalizedRecord.t :=
  NormalizedRecord.mk
    (uuid4 n)
    (provider_id normalized)
    (provider_name normalized)
    (record_type normalized)
    (region normalized)
    (json_dumps (location_value (frag_location normalized)))
    (event_time normalized)
    (now_iso n)
    (severity normalized)
    (json_dumps (VDict (metrics normalized)))
    (summary normalized)
    (json_dumps (VDict payload))
    (json_dumps (VList (map VStr (quality_flags normalized)))).

Definition success_entry (row : NormalizedRecord.t) : BatchRecordResult.t :=
  BatchRecordResult.mk true (Some (NormalizedRecordSchema.mk row)) None.

Definition failure_entry (message : string) : BatchRecordResult.t :=
  BatchRecordResult.mk false None (Some message).

(** The result entries of a batch, item by item, from a session [db]. *)
Fixpoint entries (records : list IngestRequest.t) (db : Session) : list BatchRecordResult.t :=
  match records with
  | [] => []
  | item :: rest =>
      match dispatched item with
      | Ok (frag, payload) =>
          success_entry (row_for (List.length db) frag payload)
            :: entries rest (db ++ [row_for (List.length db) frag payload])
      | Raise exc => failure_entry (exn_msg exc) :: entries rest db
      end
  end.

(** The session a batch leaves. *)
Fixpoint session_after (records : list IngestRequest.t) (db : Session) : Session :=
  match records with
  | [] => db
  | item :: rest =>
      match dispatched item with
      | Ok (frag, payload) =>
          session_after rest (db ++ [row_for (List.length db) frag payload])
      | Raise _ => session_after rest db
      end
  end.

(** The number of items of a batch the dispatcher accepts. *)
Fixpoint accepted (records : list IngestRequest.t) : Z :=
  match records with
  | [] => 0
  | item :: rest =>
      match dispatched item with
      | Ok _ => 1 + accepted rest
      | Raise _ => accepted rest
      end
  end.

(** The six severity levels. *)
Definition LEVELS : list string :=
  ["low"; "moderate"; "considerable"; "high"; "extreme"; "unknown"].

(** The five quality flags. *)
Definition FLAGS : list string :=
  [ "missing_coordinates"; "missing_timestamp"; "unknown_severity"; "empty_summary";
    "invalid_metric_type" ].

(** Every character of [s] satisfies [p]. *)
Fixpoint all_chars (p : ascii -> bool) (s : string) : bool :=
  match s with
  | EmptyString => true
  | String c r => p c && all_chars p r
  end.

Definition ascii_printable (c : ascii) : bool :=
  let n := Z.of_nat (nat_of_ascii c) in
  (32 <=? n) && (n <=? 126).

(** The four top-level coordinate keys. *)
Definition COORDINATE_KEYS : list string := ["lat"; "latitude"; "lon"; "longitude"].

Definition unsupported_message (record_type : string) : string :=
  "Unsupported record_type: '" +++ record_type
    +++ "'. Supported: ['bulletin', 'observation', 'weather']".

End Pipeline.

(** ** A small runtime

    An instance of [PyRuntime] to run the pipeline on sample payloads.  It
    reads the zero-padded spellings of the six timestamp formats and decimal
    float literals of at most 15 digits, and prints a float by its exact
    decimal expansion. *)

Module Sample.

Fixpoint take_digits (n : nat) (s : string) (acc : Z) : option (Z * string) :=
  match n with
  | O => Some (acc, s)
  | S n' =>
      match s with
      | String c r =>
          match digit_val c with
          | Some d => take_digits n' r (10 * acc + d)
          | None => None
          end
      | EmptyString => None
      end
  end.

(** Up to [n] digits; the count of digits read comes with the number. *)
Fixpoint take_upto (n : nat) (s : string) (acc : Z) (count : nat) : Z * nat * string :=
  match n, s with
  | S n', String c r =>
      match digit_val c with
      | Some d => take_upto n' r (10 * acc + d) (S count)
      | None => (acc, count, s)
      end
  | _, _ => (acc, count, s)
  end.

Definition parse_offset (s : string) : option (Z * string) :=
  match s with
  | String "Z" r => Some (0, r)
  | String c r =>
      if Ascii.eqb c "+" || Ascii.eqb c "-" then
        match take_digits 2 r 0 with
        | Some (hh, r1) =>
            let r2 := match r1 with String ":" r' => r' | _ => r1 end in
            match take_digits 2 r2 0 with
            | Some (mm, r3) =>
                if mm <? 60 then
                  let off := (hh * 3600 + mm * 60) * 1000000 in
                  Some (if Ascii.eqb c "-" then - off else off, r3)
                else None
            | None => None
            end
        | None => None
        end
      else None
  | EmptyString => None
  end.

Definition set_field (dt : datetime) (d : ascii) (z : Z) : datetime :=
  let n := Z.of_nat (nat_of_ascii d) in
  mkDatetime (if n =? 89 then z else year dt)
             (if n =? 109 then z else month dt)
             (if n =? 100 then z else day dt)
             (if n =? 72 then z else hour dt)
             (if n =? 77 then z else minute dt)
             (if n =? 83 then z else second dt)
             (if n =? 102 then z else microsecond dt)
             (if n =? 122 then Some z else tzinfo dt).

Fixpoint scan (fuel : nat) (fmt s : string) (dt : datetime) : option datetime :=
  match fuel with
  | O => None
  | S fuel' =>
      match fmt with
      | EmptyString => match s with EmptyString => Some dt | _ => None end
      | String "%" (String d fmt') =>
          if Ascii.eqb d "z" then
            match parse_offset s with
            | Some (off, r) => scan fuel' fmt' r (set_field dt d off)
            | None => None
            end
          else if Ascii.eqb d "f" then
            match take_upto 6 s 0 0 with
            | (_, O, _) => None
            | (z, count, r) => scan fuel' fmt' r (set_field dt d (z * 10 ^ Z.of_nat (6 - count)))
            end
          else
            match take_digits (if Ascii.eqb d "Y" then 4 else 2) s 0 with
            | Some (z, r) => scan fuel' fmt' r (set_field dt d z)
            | None => None
            end
      | String c fmt' =>
          match s with
          | String c' r => if Ascii.eqb c c' then scan fuel' fmt' r dt else None
          | EmptyString => None
          end
      end
  end.

Definition is_leap (y : Z) : bool :=
  ((y mod 4 =? 0) && negb (y mod 100 =? 0)) || (y mod 400 =? 0).

Definition days_in_month (y m : Z) : Z :=
  if m =? 2 then (if is_leap y then 29 else 28)
  else if (m =? 4) || (m =? 6) || (m =? 9) || (m =? 11) then 30
  else 31.

Definition valid (dt : datetime) : bool :=
  (1 <=? year dt) && (1 <=? month dt) && (month dt <=? 12)
  && (1 <=? day dt) && (day dt <=? days_in_month (year dt) (month dt))
  && (hour dt <? 24) && (minute dt <? 60) && (second dt <? 60)
  && match tzinfo dt with
     | Some off => Z.abs off <? 86400000000
     | None => true
     end.

Definition strptime (s fmt : string) : option datetime :=
  match scan (S (String.length fmt)) fmt s (mkDatetime 1900 1 1 0 0 0 0 None) with
  | Some dt => if valid dt then Some dt else None
  | None => None
  end.

Definition float_of_ratio (neg : bool) (num den : Z) : spec_float :=
  let q := SFdiv 53 1024 (binary_normalize 53 1024 num 0 false)
                         (binary_normalize 53 1024 den 0 false) in
  if neg then SFopp q else q.

Definition float_of_str (s : string) : option spec_float :=
  let t := rstrip_by is_int_space (lstrip_by is_int_space s) in
  let '(neg, t) := match t with
                   | String "-" r => (true, r)
                   | _ => (false, t)
                   end in
  match take_upto 15 t 0 0 with
  | (_, O, _) => None
  | (ip, _, EmptyString) => Some (float_of_ratio neg ip 1)
  | (ip, n, String "." r) =>
      match take_upto (15 - n) r ip 0 with
      | (_, O, _) => None
      | (num, k, EmptyString) => Some (float_of_ratio neg num (10 ^ Z.of_nat k))
      | _ => None
      end
  | _ => None
  end.

(** The digits of [num / 2 ^ k] after the point, [k] of them. *)
Fixpoint fraction_digits (k : nat) (num den : Z) : string :=
  match k with
  | O => EmptyString
  | S k' => str_of_Z (10 * num / den) +++ fraction_digits k' (10 * num mod den) den
  end.

Fixpoint drop_trailing_zeros (s : string) : string :=
  match s with
  | EmptyString => EmptyString
  | String c r =>
      match drop_trailing_zeros r with
      | EmptyString => if Ascii.eqb c "0" then EmptyString else String c EmptyString
      | r' => String c r'
      end
  end.

Definition float_repr (f : spec_float) : string :=
  match f with
  | S754_zero s => if s then "-0.0" else "0.0"
  | S754_infinity s => if s then "-inf" else "inf"
  | S754_nan => "nan"
  | S754_finite s m e =>
      let sign := if s then "-" else EmptyString in
      if 0 <=? e then sign +++ str_of_Z (Z.pos m * 2 ^ e) +++ ".0"
      else
        let den := 2 ^ (- e) in
        let frac := drop_trailing_zeros (fraction_digits (Z.to_nat (- e)) (Z.pos m mod den) den) in
        sign +++ str_of_Z (Z.pos m / den) +++ "."
          +++ (if String.eqb frac EmptyString then "0" else frac)
  end.

(** The UTC time of a float epoch, to the nearest microsecond below. *)
Definition utc_of_float_timestamp (f : spec_float) : option datetime :=
  match f with
  | S754_zero _ => fromtimestamp_int 0
  | S754_finite s m e =>
      let a := if 0 <=? e then Z.pos m * 2 ^ e * 1000000
               else Z.pos m * 1000000 / 2 ^ (- e) in
      let us := if s then - a else a in
      match fromtimestamp_int (us / 1000000) with
      | Some dt =>
          Some (mkDatetime (year dt) (month dt) (day dt) (hour dt) (minute dt)
                           (second dt) (us mod 1000000) (tzinfo dt))
      | None => None
      end
  | _ => None
  end.

Definition uuid4 (n : nat) : string :=
  "00000000-0000-4000-8000-" +++ zpad 12 (Z.of_nat n).

Definition now_iso (n : nat) : string :=
  match fromtimestamp_int (1700000000 + Z.of_nat n) with
  | Some dt => isoformat dt
  | None => EmptyString
  end.

Definition runtime : PyRuntime :=
  Build_PyRuntime float_repr float_of_str strptime utc_of_float_timestamp uuid4 now_iso.

End Sample.

(** ** Sample payloads *)

Definition PROVIDER : dict :=
  [ ("provider_id", VStr "test-provider"); ("provider_name", VStr "Test Provider") ].

Definition weather_config : config :=
  mkConfig ["severity"; "alert_level"; "warning_level"]
           ["recorded_at"; "timestamp"; "observation_time"; "time"; "date"]
           ["summary"; "conditions"; "description"]
           ["region"; "zone"; "station_region"]
           ["temperature_f"; "temperature_c"; "wind_speed_mph"; "wind_gust_mph";
            "wind_direction"; "relative_humidity"; "snow_depth_cm"; "new_snow_cm";
            "pressure_mb"; "visibility_miles"].

Definition icy_payload : dict :=
  [ ("timestamp", VStr "2024-03-01T06:00:00Z");
    ("description", VStr "Icy.");
    ("wind_speed_mph", VInt 25);
    ("metrics", VDict [("complex_val", VList [VInt 1; VInt 2; VInt 3]);
                       ("wind_speed_mph", VInt 10)]) ].

Definition teton_payload : dict :=
  [ ("location", VDict [("name", VStr "Teton Pass"); ("elevation_ft", VInt 0);
                        ("elevation", VStr "8431")]) ].

Definition sample_batch : list IngestRequest.t :=
  [ IngestRequest.mk "prov-001" "Provider A" "bulletin"
      [("danger", VStr "high"); ("issued_at", VStr "2024-01-15T12:00:00Z"); ("summary", VStr "Test")];
    IngestRequest.mk "prov-bad" "Bad Provider" "invalid_type" [];
    IngestRequest.mk "prov-002" "Provider B" "observation"
      [("timestamp", VStr "2024-01-16T08:00:00Z"); ("notes", VStr "Wet avalanche cycle.")] ].

Definition equator_payload : dict :=
  [ ("latitude", VInt 0); ("lon", VInt (-78));
    ("location", VDict [("lat", VInt 44); ("lon", VInt (-110))]) ].

Definition stale_payload : dict :=
  [ ("issued_at", VInt 0); ("timestamp", VStr "2024-01-15T12:00:00Z"); ("date", VStr "soon") ].

Definition bulletin_config : config :=
  mkConfig ["danger"; "avalanche_danger"; "severity"; "danger_level"]
           ["issued_at"; "timestamp"; "valid_time"; "date"]
           ["summary"; "headline"; "description"; "text"]
           ["region"; "zone"; "area"]
           ["rose"; "aspects"; "elevation_bands"; "travel_advice"].

Definition high_danger : IngestRequest.t :=
  IngestRequest.mk "prov-001" "Provider A" "bulletin"
    [("danger", VStr "high"); ("issued_at", VStr "2024-01-15T12:00:00Z"); ("summary", VStr "Test")].

(** * Properties *)

Section Properties.

Context {runtime : PyRuntime}.

(** ** The normalizers are instances of [normalize_with] *)

Ltac unfold_normalizer :=
  intros;
  unfold normalize_with, raw_metrics_of, payload_after, first_truthy;
  cbn [fold_left cfg_severity_keys cfg_time_keys cfg_summary_keys cfg_region_keys
       cfg_metric_keys];
  reflexivity.

Lemma normalize_bulletin_with (c : config) :
  table_get CONFIGS "bulletin" = Some c ->
  forall payload meta, normalize_bulletin payload meta = normalize_with "bulletin" c payload meta.
Proof. intros [= <-]. unfold normalize_bulletin. unfold_normalizer. Qed.

Lemma normalize_observation_with (c : config) :
  table_get CONFIGS "observation" = Some c ->
  forall payload meta,
    normalize_observation payload meta = normalize_with "observation" c payload meta.
Proof. intros [= <-]. unfold normalize_observation. unfold_normalizer. Qed.

Lemma normalize_weather_with (c : config) :
  table_get CONFIGS "weather" = Some c ->
  forall payload meta, normalize_weather payload meta = normalize_with "weather" c payload meta.
Proof. intros [= <-]. unfold normalize_weather. unfold_normalizer. Qed.

Lemma normalizers_configs (kind : string) (norm : normalizer) :
  table_get NORMALIZERS kind = Some norm ->
  exists c, table_get CONFIGS kind = Some c
            /\ forall payload meta, norm payload meta = normalize_with kind c payload meta.
Proof.
  unfold NORMALIZERS. cbn [table_get].
  destruct (String.eqb "bulletin" kind) eqn:Eb.
  { apply String.eqb_eq in Eb; subst kind. intros [= <-].
    eexists; split; [reflexivity | now apply normalize_bulletin_with]. }
  destruct (String.eqb "observation" kind) eqn:Eo.
  { apply String.eqb_eq in Eo; subst kind. intros [= <-].
    eexists; split; [reflexivity | now apply normalize_observation_with]. }
  destruct (String.eqb "weather" kind) eqn:Ew.
  { apply String.eqb_eq in Ew; subst kind. intros [= <-].
    eexists; split; [reflexivity | now apply normalize_weather_with]. }
  discriminate.
Qed.

Lemma supported_kinds (kind : string) (norm : normalizer) :
  table_get NORMALIZERS kind = Some norm ->
  kind = "bulletin" \/ kind = "observation" \/ kind = "weather".
Proof.
  unfold NORMALIZERS, table_get.
  destruct (String.eqb "bulletin" kind) eqn:Eb;
    [apply String.eqb_eq in Eb; auto |].
  destruct (String.eqb "observation" kind) eqn:Eo;
    [apply String.eqb_eq in Eo; auto |].
  destruct (String.eqb "weather" kind) eqn:Ew;
    [apply String.eqb_eq in Ew; auto | discriminate].
Qed.

(** Inversion of a successful run of [normalize_with]. *)
Lemma normalize_with_ok kind c payload meta frag payload' :
  normalize_with kind c payload meta = Ok (frag, payload') ->
  exists loc,
    _build_location (payload_after (cfg_metric_keys c) payload) = Ok loc
    /\ payload' = payload_after (cfg_metric_keys c) payload
    /\ let vm := validate_metrics (raw_metrics_of (cfg_metric_keys c) payload) in
       let record :=
         mkFragment (safe_str (dict_get meta "provider_id"))
                    (safe_str (dict_get meta "provider_name"))
                    kind
                    (str_or_none (safe_str (first_truthy payload (cfg_region_keys c)
                                            orelse VStr EmptyString)))
                    loc
                    (parse_timestamp (first_truthy payload (cfg_time_keys c)))
                    (normalize_severity (severity_arg (first_truthy payload (cfg_severity_keys c))))
                    (fst vm)
                    (safe_str (first_truthy payload (cfg_summary_keys c) orelse VStr EmptyString))
                    [] in
       frag = set_quality_flags record (dedup (_collect_quality_flags record ++ snd vm)).
Proof.
  unfold normalize_with.
  destruct (validate_metrics _) as [m fl] eqn:Ev.
  destruct (_build_location _) as [loc|e] eqn:El; simpl; [| discriminate].
  intros [= <- <-]. exists loc. repeat split; reflexivity.
Qed.

(** ** Dicts *)

Lemma dict_lookup_set (d : dict) (k k' : string) (v : value) :
  dict_lookup (dict_set d k v) k' = if String.eqb k k' then Some v else dict_lookup d k'.
Proof.
  induction d as [|[k0 v0] d IH]; simpl.
  - reflexivity.
  - destruct (String.eqb k0 k) eqn:E0; simpl.
    + apply String.eqb_eq in E0; subst k0. destruct (String.eqb k k'); reflexivity.
    + rewrite IH. destruct (String.eqb k0 k') eqn:E1; [| reflexivity].
      apply String.eqb_eq in E1; subst k0.
      rewrite String.eqb_sym, E0. reflexivity.
Qed.

Lemma dict_get_set (d : dict) (k k' : string) (v : value) :
  dict_get (dict_set d k v) k' = if String.eqb k k' then v else dict_get d k'.
Proof.
  unfold dict_get. rewrite dict_lookup_set. destruct (String.eqb k k'); reflexivity.
Qed.

Lemma mem_In (k : string) (keys : list string) : mem k keys = true <-> In k keys.
Proof.
  unfold mem. rewrite existsb_exists. split.
  - intros [x [Hin Heq]]. apply String.eqb_eq in Heq. now subst.
  - intros Hin. exists k. split; [assumption | apply String.eqb_refl].
Qed.

Lemma dict_keys_set (d : dict) (k : string) (v : value) :
  dict_keys (dict_set d k v) = if mem k (dict_keys d) then dict_keys d else dict_keys d ++ [k].
Proof.
  induction d as [|[k0 v0] d IH]; simpl.
  - reflexivity.
  - unfold mem in *. simpl. rewrite (String.eqb_sym k k0).
    destruct (String.eqb k0 k) eqn:E0; simpl.
    + apply String.eqb_eq in E0. now subst.
    + fold (dict_keys (dict_set d k v)). rewrite IH.
      destruct (existsb (String.eqb k) (dict_keys d)); reflexivity.
Qed.

Lemma dict_wf_set (d : dict) (k : string) (v : value) :
  dict_wf d -> dict_wf (dict_set d k v).
Proof.
  unfold dict_wf. intros Hd. rewrite dict_keys_set.
  destruct (mem k (dict_keys d)) eqn:Em; [assumption |].
  apply NoDup_app; [assumption | repeat constructor; intros [] | ].
  intros x Hx [<- | []].
  apply mem_In in Hx. congruence.
Qed.

Lemma dict_lookup_None (d : dict) (k : string) :
  dict_lookup d k = None <-> ~ In k (dict_keys d).
Proof.
  induction d as [|[k0 v0] d IH]; simpl.
  - tauto.
  - destruct (String.eqb k0 k) eqn:E0.
    + apply String.eqb_eq in E0. split; [discriminate | intros H; exfalso; apply H; auto].
    + apply String.eqb_neq in E0. rewrite IH. tauto.
Qed.

(** ** [list(dict.fromkeys(flags))] keeps first occurrences *)

Lemma dedup_fold (flags : list string) (d : dict) :
  dict_keys (fold_left (fun d k => dict_set d k VNone) flags d)
  = fold_left add_key flags (dict_keys d).
Proof.
  revert d. induction flags as [|x flags IH]; intros d; simpl.
  - reflexivity.
  - rewrite IH, dict_keys_set. reflexivity.
Qed.

Lemma add_keys_NoDup (flags acc : list string) :
  NoDup acc -> NoDup (fold_left add_key flags acc).
Proof.
  revert acc. induction flags as [|x flags IH]; intros acc Hacc; simpl.
  - assumption.
  - apply IH. unfold add_key. destruct (mem x acc) eqn:Em; [assumption |].
    apply NoDup_app; [assumption | repeat constructor; intros [] |].
    intros y Hy [<- | []]. apply mem_In in Hy. congruence.
Qed.

Lemma dedup_NoDup (flags : list string) : NoDup (dedup flags).
Proof.
  unfold dedup. rewrite dedup_fold. apply add_keys_NoDup. constructor.
Qed.

Lemma add_keys_fresh (l pre : list string) :
  NoDup l -> (forall x, In x l -> ~ In x pre) ->
  fold_left add_key l pre = pre ++ l.
Proof.
  revert pre. induction l as [|x l IH]; intros pre Hnd Hfresh; simpl.
  - now rewrite app_nil_r.
  - inversion Hnd as [|? ? Hx Hl]; subst. unfold add_key at 2.
    destruct (mem x pre) eqn:Em.
    + apply mem_In in Em. exfalso. apply (Hfresh x); [left; reflexivity | assumption].
    + rewrite IH; [now rewrite <- app_assoc | assumption |].
      intros y Hy Hin. apply in_app_or in Hin as [Hin | [<- | []]].
      * apply (Hfresh y); [right; assumption | assumption].
      * contradiction.
Qed.

(** A list without duplicates is its own deduplication. *)
Lemma dedup_NoDup_id (l : list string) : NoDup l -> dedup l = l.
Proof.
  intros Hnd. unfold dedup. rewrite dedup_fold. simpl.
  rewrite add_keys_fresh; [reflexivity | assumption | intros x _ []].
Qed.

(** Repetitions of one flag after a list that lacks it leave one copy. *)
Lemma add_keys_repeat (flag : string) (extra acc : list string) :
  (forall f, In f extra -> f = flag) -> ~ In flag acc ->
  fold_left add_key extra acc
  = acc ++ flag_if (match extra with [] => false | _ :: _ => true end) flag.
Proof.
  intros Hall Hnot. destruct extra as [|x extra]; simpl.
  - now rewrite app_nil_r.
  - assert (x = flag) by (apply Hall; left; reflexivity). subst x.
    unfold add_key at 2.
    destruct (mem flag acc) eqn:Em; [apply mem_In in Em; contradiction |].
    assert (Hrest : forall f, In f extra -> f = flag)
      by (intros f Hf; apply Hall; right; assumption).
    clear Hall Em. induction extra as [|y extra IH]; simpl.
    + reflexivity.
    + assert (y = flag) by (apply Hrest; left; reflexivity). subst y.
      unfold add_key at 2.
      assert (Hm : mem flag (acc ++ [flag]) = true)
        by (apply mem_In, in_or_app; right; left; reflexivity).
      rewrite Hm. apply IH. intros f Hf. apply Hrest. right. assumption.
Qed.

Lemma dedup_app (l extra : list string) :
  dedup (l ++ extra) = fold_left add_key extra (dedup l).
Proof.
  unfold dedup. rewrite !dedup_fold, fold_left_app. reflexivity.
Qed.

(** ** [validate_metrics] *)

Lemma validate_loop_flags (items cleaned : dict) (flags : list string) :
  snd (validate_loop items cleaned flags)
  = flags ++ map (fun _ => "invalid_metric_type") (filter dropped items).
Proof.
  revert cleaned flags. induction items as [|[k v] items IH]; intros cleaned flags; simpl.
  - now rewrite app_nil_r.
  - unfold dropped at 1. simpl. destruct (is_metric_scalar v); simpl.
    + apply IH.
    + rewrite IH, <- app_assoc. reflexivity.
Qed.

Lemma dict_set_fresh (d : dict) (k : string) (v : value) :
  ~ In k (dict_keys d) -> dict_set d k v = d ++ [(k, v)].
Proof.
  induction d as [|[k0 v0] d IH]; simpl; intros Hk.
  - reflexivity.
  - destruct (String.eqb k0 k) eqn:E0.
    + apply String.eqb_eq in E0. exfalso. apply Hk. auto.
    + rewrite IH; [reflexivity | intros H; apply Hk; auto].
Qed.

Lemma validate_loop_cleaned (items cleaned : dict) (flags : list string) :
  NoDup (dict_keys items) ->
  (forall k, In k (dict_keys items) -> ~ In k (dict_keys cleaned)) ->
  fst (validate_loop items cleaned flags) = cleaned ++ filter kept items.
Proof.
  revert cleaned flags.
  induction items as [|[k v] items IH]; intros cleaned flags Hnd Hdisj; simpl.
  - now rewrite app_nil_r.
  - inversion Hnd as [|? ? Hk Hitems]; subst.
    unfold kept at 1. simpl. destruct (is_metric_scalar v); simpl.
    + rewrite IH; [| assumption |].
      * rewrite dict_set_fresh; [now rewrite <- app_assoc |].
        apply Hdisj. left. reflexivity.
      * intros k' Hk' Hin. rewrite dict_set_fresh in Hin by (apply Hdisj; left; reflexivity).
        unfold dict_keys in Hin. rewrite map_app in Hin.
        apply in_app_or in Hin as [Hin | [<- | []]].
        -- apply (Hdisj k'); [right; assumption | assumption].
        -- contradiction.
    + apply IH; [assumption |]. intros k' Hk'. apply Hdisj. right. assumption.
Qed.

(** On a dict, [validate_metrics] keeps the scalar entries in their order
    and adds one flag per entry it drops. *)
Lemma validate_metrics_filter (d : dict) :
  dict_wf d ->
  validate_metrics d
  = (filter kept d, map (fun _ => "invalid_metric_type") (filter dropped d)).
Proof.
  intros Hwf. unfold validate_metrics.
  rewrite (surjective_pairing (validate_loop d [] [])).
  rewrite validate_loop_flags, validate_loop_cleaned; [reflexivity | assumption |].
  intros k _ [].
Qed.

Lemma validate_flags_all (d : dict) (f : string) :
  In f (snd (validate_metrics d)) -> f = "invalid_metric_type".
Proof.
  unfold validate_metrics. rewrite validate_loop_flags. simpl.
  intros Hin. apply in_map_iff in Hin as [x [Hx _]]. now symmetry.
Qed.

Lemma validate_flags_nonempty (d : dict) :
  match snd (validate_metrics d) with [] => false | _ :: _ => true end = existsb dropped d.
Proof.
  unfold validate_metrics. rewrite validate_loop_flags. simpl.
  induction d as [|kv d IH]; simpl; [reflexivity |].
  destruct (dropped kv); simpl; [reflexivity | assumption].
Qed.

Lemma dict_lookup_filter_kept (d : dict) (k : string) :
  dict_wf d -> dict_lookup (filter kept d) k = keep_scalar (dict_lookup d k).
Proof.
  unfold dict_wf. induction d as [|[k0 v0] d IH]; simpl; intros Hnd.
  - reflexivity.
  - inversion Hnd as [|? ? Hk0 Hd]; subst. unfold kept at 1. simpl.
    destruct (String.eqb k0 k) eqn:E0.
    + apply String.eqb_eq in E0; subst k0. simpl.
      destruct (is_metric_scalar v0); simpl.
      * now rewrite String.eqb_refl.
      * rewrite IH by assumption.
        apply dict_lookup_None in Hk0. now rewrite Hk0.
    + destruct (is_metric_scalar v0); simpl; [rewrite E0 |]; now apply IH.
Qed.

(** ** The quality flags *)

Lemma collect_base (record : fragment) :
  _collect_quality_flags record = base_flags record.
Proof.
  unfold _collect_quality_flags, base_flags, flag_if, is_null.
  destruct (loc_lat (frag_location record)), (loc_lon (frag_location record)),
    (is_empty_opt (event_time record)), (String.eqb (severity record) "unknown"),
    (String.eqb (strip (summary record)) EmptyString); reflexivity.
Qed.

Lemma base_flags_NoDup (frag : fragment) : NoDup (base_flags frag).
Proof.
  unfold base_flags, flag_if.
  destruct (is_null _ || is_null _), (is_empty_opt _), (String.eqb (severity frag) _),
    (String.eqb (strip _) _); simpl;
    repeat (constructor; [simpl; intuition discriminate |]); constructor.
Qed.

Lemma base_flags_no_metric_flag (frag : fragment) :
  ~ In "invalid_metric_type" (base_flags frag).
Proof.
  unfold base_flags, flag_if.
  destruct (is_null _ || is_null _), (is_empty_opt _), (String.eqb (severity frag) _),
    (String.eqb (strip _) _); simpl; intuition discriminate.
Qed.

Lemma merged_flags (record : fragment) (d : dict) :
  dedup (_collect_quality_flags record ++ snd (validate_metrics d))
  = base_flags record ++ flag_if (existsb dropped d) "invalid_metric_type".
Proof.
  rewrite dedup_app, collect_base, dedup_NoDup_id by apply base_flags_NoDup.
  rewrite add_keys_repeat with (flag := "invalid_metric_type").
  - now rewrite validate_flags_nonempty.
  - apply validate_flags_all.
  - apply base_flags_no_metric_flag.
Qed.

(** C2.  For every payload and supported record type, the quality flags of
    the returned record are the quality conditions that apply to it, in the
    fixed order [missing_coordinates] (lat or lon null), [missing_timestamp]
    (event time null or empty), [unknown_severity], [empty_summary]
    (summary empty or all whitespace), followed by one [invalid_metric_type]
    when metric validation dropped a value; the list has no duplicate.  The
    payload [{}] as a bulletin yields exactly the four condition flags in
    that order. *)
Theorem quality_flags_in_order :
  (forall kind norm c payload meta frag payload',
      table_get NORMALIZERS kind = Some norm ->
      table_get CONFIGS kind = Some c ->
      norm payload meta = Ok (frag, payload') ->
      quality_flags frag
      = base_flags frag
        ++ flag_if (existsb dropped (raw_metrics_of (cfg_metric_keys c) payload))
                   "invalid_metric_type"
      /\ NoDup (quality_flags frag))
  /\ (forall meta, exists frag,
         normalize_bulletin [] meta = Ok (frag, [])
         /\ quality_flags frag
            = ["missing_coordinates"; "missing_timestamp"; "unknown_severity"; "empty_summary"]).
Proof.
  split.
  - intros kind norm c payload meta frag payload' Hnorm Hcfg Hrun.
    destruct (normalizers_configs kind norm Hnorm) as [c' [Hc' Heq]].
    rewrite Hcfg in Hc'. injection Hc' as <-.
    rewrite Heq in Hrun.
    apply normalize_with_ok in Hrun as [loc [_ [_ Hfrag]]].
    cbv zeta in Hfrag. rewrite merged_flags in Hfrag. subst frag.
    split.
    + reflexivity.
    + cbn [quality_flags set_quality_flags].
      apply NoDup_app.
      * apply base_flags_NoDup.
      * unfold flag_if. destruct (existsb _ _); repeat constructor. intros [].
      * intros x Hx Hin. unfold flag_if in Hin.
        destruct (existsb _ _); simpl in Hin; [| contradiction].
        destruct Hin as [<- | []]. revert Hx. apply base_flags_no_metric_flag.
  - intros meta. eexists. split; reflexivity.
Qed.

(** ** The metric overlay *)

Lemma dict_lookup_In (d : dict) (k : string) (v : value) :
  dict_lookup d k = Some v -> In (k, v) d.
Proof.
  induction d as [|[k0 v0] d IH]; simpl; [discriminate |].
  destruct (String.eqb k0 k) eqn:E0.
  - apply String.eqb_eq in E0. intros [= <-]. left. now subst.
  - intros H. right. now apply IH.
Qed.

Lemma dict_In_lookup (d : dict) (k : string) (v : value) :
  dict_wf d -> In (k, v) d -> dict_lookup d k = Some v.
Proof.
  unfold dict_wf. induction d as [|[k0 v0] d IH]; simpl; intros Hnd Hin; [contradiction |].
  inversion Hnd as [|? ? Hk0 Hd]; subst.
  destruct Hin as [[= -> ->] | Hin].
  - now rewrite String.eqb_refl.
  - destruct (String.eqb k0 k) eqn:E0; [| now apply IH].
    apply String.eqb_eq in E0; subst k0. exfalso. apply Hk0.
    apply in_map_iff. exists (k, v). auto.
Qed.

Lemma overlay_fresh (keys : list string) (payload d : dict) :
  let s := overlay keys Fresh (mkStore payload d) in
  payload_obj s = payload
  /\ (dict_wf d -> dict_wf (fresh_obj s))
  /\ forall k, dict_lookup (fresh_obj s) k
               = if mem k keys && negb (is_none (dict_get payload k))
                 then Some (dict_get payload k)
                 else dict_lookup d k.
Proof.
  revert d. induction keys as [|key keys IH]; intros d; cbn [overlay payload_obj].
  - simpl. auto.
  - destruct (is_none (dict_get payload key)) eqn:En; cbn [negb setitem payload_obj fresh_obj].
    + destruct (IH d) as [Hp [Hwf Hl]]. repeat split; [exact Hp | exact Hwf |].
      intros k. rewrite Hl. unfold mem. simpl.
      destruct (String.eqb k key) eqn:Ek; [| reflexivity].
      apply String.eqb_eq in Ek; subst k. rewrite En. simpl.
      now rewrite andb_false_r.
    + destruct (IH (dict_set d key (dict_get payload key))) as [Hp [Hwf Hl]].
      repeat split; [exact Hp | intros Hd; apply Hwf, dict_wf_set, Hd |].
      intros k. rewrite Hl, dict_lookup_set. unfold mem. simpl.
      rewrite (String.eqb_sym key k).
      destruct (String.eqb k key) eqn:Ek; simpl; [| reflexivity].
      apply String.eqb_eq in Ek; subst k. rewrite En. simpl.
      destruct (existsb _ keys); reflexivity.
Qed.

Lemma overlay_alias (keys : list string) (payload : dict) :
  mem "metrics" keys = false ->
  forall s d,
    dict_get (payload_obj s) "metrics" = VDict d ->
    (forall k, k <> "metrics" -> dict_get (payload_obj s) k = dict_get payload k) ->
    let s' := overlay keys PayloadMetrics s in
    (forall k, k <> "metrics" -> dict_get (payload_obj s') k = dict_get payload k)
    /\ (dict_wf d -> dict_wf (deref s' PayloadMetrics))
    /\ forall k, dict_lookup (deref s' PayloadMetrics) k
                 = if mem k keys && negb (is_none (dict_get payload k))
                   then Some (dict_get payload k)
                   else dict_lookup d k.
Proof.
  induction keys as [|key keys IH]; intros Hm s d Hd Hother; cbn [overlay].
  - unfold deref. rewrite Hd. simpl. auto.
  - unfold mem in Hm. simpl in Hm. apply orb_false_elim in Hm as [Hkey Hm].
    assert (Hne : key <> "metrics").
    { intros ->. simpl in Hkey. discriminate. }
    rewrite (Hother key Hne).
    destruct (is_none (dict_get payload key)) eqn:En; cbn [negb].
    + destruct (IH Hm s d Hd Hother) as [Ho [Hwf Hl]].
      repeat split; [exact Ho | exact Hwf |].
      intros k. rewrite Hl. unfold mem. simpl.
      destruct (String.eqb k key) eqn:Ek; [| reflexivity].
      apply String.eqb_eq in Ek; subst k. rewrite En. simpl.
      now rewrite andb_false_r.
    + set (v := dict_get payload key).
      assert (Hd1 : dict_get (payload_obj (setitem s PayloadMetrics key v)) "metrics"
                    = VDict (dict_set d key v)).
      { cbn [setitem payload_obj]. rewrite dict_get_set, String.eqb_refl.
        unfold deref. now rewrite Hd. }
      assert (Ho1 : forall k, k <> "metrics" ->
                dict_get (payload_obj (setitem s PayloadMetrics key v)) k = dict_get payload k).
      { intros k Hk. cbn [setitem payload_obj]. rewrite dict_get_set.
        destruct (String.eqb "metrics" k) eqn:E; [| now apply Hother].
        apply String.eqb_eq in E. congruence. }
      destruct (IH Hm _ _ Hd1 Ho1) as [Ho [Hwf Hl]].
      repeat split; [exact Ho | intros Hwd; apply Hwf, dict_wf_set, Hwd |].
      intros k. rewrite Hl, dict_lookup_set. unfold mem. simpl.
      rewrite (String.eqb_sym key k).
      destruct (String.eqb k key) eqn:Ek; simpl; [| reflexivity].
      apply String.eqb_eq in Ek; subst k. subst v. rewrite En. simpl.
      destruct (existsb (String.eqb key) keys); reflexivity.
Qed.

Lemma bind_raw_metrics_cases (payload : dict) :
  (bind_raw_metrics payload = Fresh /\ metrics_base payload = [])
  \/ (bind_raw_metrics payload = PayloadMetrics
      /\ dict_get payload "metrics" = VDict (metrics_base payload)
      /\ metrics_base payload <> []).
Proof.
  unfold bind_raw_metrics, metrics_base.
  destruct (dict_get payload "metrics") as [| b | z | f | s | l | d]; simpl;
    try (left; split; [now destruct (negb _) + now destruct b + now destruct l | reflexivity]).
  - left. split; reflexivity.
  - destruct d; [left; split; reflexivity | right; repeat split; discriminate].
Qed.

(** The dict given to [validate_metrics]: the base overlaid with the listed
    top-level keys that hold a non-null value. *)
Lemma raw_metrics_lookup (keys : list string) (payload : dict) :
  mem "metrics" keys = false ->
  (dict_wf (metrics_base payload) -> dict_wf (raw_metrics_of keys payload))
  /\ forall k, dict_lookup (raw_metrics_of keys payload) k = overlaid keys payload k.
Proof.
  intros Hm. unfold raw_metrics_of, overlaid.
  destruct (bind_raw_metrics_cases payload) as [[-> ->] | [-> [Hd _]]].
  - destruct (overlay_fresh keys payload []) as [_ [Hwf Hl]].
    split; [intros _; apply Hwf; constructor | exact Hl].
  - destruct (overlay_alias keys payload Hm (mkStore payload []) _ Hd
                (fun k _ => eq_refl)) as [_ [Hwf Hl]].
    split; [exact Hwf | exact Hl].
Qed.

Lemma config_metric_keys (kind : string) (c : config) :
  table_get CONFIGS kind = Some c -> mem "metrics" (cfg_metric_keys c) = false.
Proof.
  unfold CONFIGS, table_get.
  destruct (String.eqb "bulletin" kind); [intros [= <-]; reflexivity |].
  destruct (String.eqb "observation" kind); [intros [= <-]; reflexivity |].
  destruct (String.eqb "weather" kind); [intros [= <-]; reflexivity | discriminate].
Qed.

(** C7.  For every payload and record type, the metrics of the returned
    record are those of the payload's [metrics] entry when it is a mapping
    (else of the empty mapping), overlaid with the type's top-level metric
    keys that hold a value in the payload, the top-level value winning, and
    then validated: a value that is a list or a mapping, that is, not an
    integer, float, string, boolean or null, is dropped and raises the
    [invalid_metric_type] flag, and every other value is kept as it is. *)
Theorem metrics_overlay_then_validate
        (kind : string) (norm : normalizer) (c : config)
        (payload meta : dict) (frag : fragment) (payload' : dict) :
  table_get NORMALIZERS kind = Some norm ->
  table_get CONFIGS kind = Some c ->
  dict_wf (metrics_base payload) ->
  norm payload meta = Ok (frag, payload') ->
  (forall k, dict_lookup (metrics frag) k
             = keep_scalar (overlaid (cfg_metric_keys c) payload k))
  /\ (In "invalid_metric_type" (quality_flags frag)
      <-> exists k v, overlaid (cfg_metric_keys c) payload k = Some v
                      /\ is_metric_scalar v = false)
  /\ (forall v, is_metric_scalar v = false
                <-> (exists l, v = VList l) \/ (exists d, v = VDict d)).
Proof.
  intros Hnorm Hcfg Hwf Hrun.
  destruct (raw_metrics_lookup (cfg_metric_keys c) payload (config_metric_keys _ _ Hcfg))
    as [Hwfr Hl].
  specialize (Hwfr Hwf).
  destruct (normalizers_configs kind norm Hnorm) as [c' [Hc' Heq]].
  rewrite Hcfg in Hc'. injection Hc' as <-.
  rewrite Heq in Hrun.
  apply normalize_with_ok in Hrun as [loc [_ [_ Hfrag]]].
  cbv zeta in Hfrag. rewrite merged_flags in Hfrag.
  rewrite (validate_metrics_filter _ Hwfr) in Hfrag. cbn [fst] in Hfrag. subst frag.
  cbn [metrics quality_flags set_quality_flags].
  split; [| split].
  - intros k. rewrite dict_lookup_filter_kept by assumption. now rewrite Hl.
  - rewrite in_app_iff. split.
    + intros [Hin | Hin]; [exfalso; revert Hin; apply base_flags_no_metric_flag |].
      unfold flag_if in Hin.
      destruct (existsb dropped _) eqn:Ex; [| contradiction].
      apply existsb_exists in Ex as [[k v] [Hin' Hd]].
      exists k, v. rewrite <- Hl. split.
      * now apply dict_In_lookup.
      * unfold dropped in Hd. simpl in Hd. now destruct (is_metric_scalar v).
    + intros [k [v [Hov Hs]]]. right. rewrite <- Hl in Hov.
      assert (Ex : existsb dropped (raw_metrics_of (cfg_metric_keys c) payload) = true).
      { apply existsb_exists. exists (k, v). split; [now apply dict_lookup_In |].
        unfold dropped. simpl. now rewrite Hs. }
      rewrite Ex. left. reflexivity.
  - intros v. destruct v; simpl; split; try discriminate; try reflexivity;
      try (intros [[l' H] | [d' H]]; discriminate); eauto.
Qed.

(** ** [parse_timestamp] *)

Lemma append_assoc (a b c : string) : (a +++ b) +++ c = a +++ (b +++ c).
Proof.
  induction a as [|ch a IH]; simpl; [reflexivity | now rewrite IH].
Qed.

Lemma try_formats_first (value : string) (pre : list string) (fmt : string)
      (post : list string) (dt : datetime) :
  (forall f, In f pre -> strptime value f = None) ->
  strptime value fmt = Some dt ->
  try_formats value (pre ++ fmt :: post) = Some (isoformat (assume_utc dt)).
Proof.
  induction pre as [|f pre IH]; intros Hpre Hfmt; simpl.
  - rewrite Hfmt. reflexivity.
  - rewrite (Hpre f) by (left; reflexivity).
    apply IH; [| assumption]. intros g Hg. apply Hpre. right. assumption.
Qed.

Lemma try_formats_none (value : string) (fmts : list string) :
  (forall f, In f fmts -> strptime value f = None) ->
  try_formats value fmts = None.
Proof.
  induction fmts as [|f fmts IH]; intros Hall; simpl.
  - reflexivity.
  - rewrite (Hall f) by (left; reflexivity).
    apply IH. intros g Hg. apply Hall. right. assumption.
Qed.

Lemma try_formats_some (value : string) (fmts : list string) (s : string) :
  try_formats value fmts = Some s ->
  exists fmt dt, In fmt fmts /\ strptime value fmt = Some dt
                 /\ s = isoformat (assume_utc dt).
Proof.
  induction fmts as [|f fmts IH]; simpl; [discriminate |].
  destruct (strptime value f) as [dt|] eqn:Ef.
  - intros [= <-]. exists f, dt. auto.
  - intros H. destruct (IH H) as [fmt [dt [Hin [Hs Heq]]]].
    exists fmt, dt. auto.
Qed.

(** The rendering of an offset-aware datetime ends with its offset. *)
Lemma isoformat_aware (dt : datetime) (off : Z) :
  tzinfo dt = Some off -> exists body, isoformat dt = body +++ format_offset off.
Proof.
  intros Htz. unfold isoformat. rewrite Htz.
  eexists.
  repeat rewrite <- append_assoc. reflexivity.
Qed.

Lemma format_offset_sign (off : Z) :
  exists rest, format_offset off = String "+" rest \/ format_offset off = String "-" rest.
Proof.
  unfold format_offset. destruct (off <? 0); simpl; eexists; eauto.
Qed.

Lemma fromtimestamp_int_utc (z : Z) (dt : datetime) :
  fromtimestamp_int z = Some dt -> tzinfo dt = Some utc.
Proof.
  unfold fromtimestamp_int.
  destruct ((min_timestamp <=? z) && (z <=? max_timestamp)); [| discriminate].
  destruct (civil_from_days (z / 86400)) as [[y m] d].
  intros [= <-]. reflexivity.
Qed.

Lemma fromtimestamp_utc (v : value) (dt : datetime) :
  fromtimestamp v = Some dt -> tzinfo dt = Some utc.
Proof.
  destruct v; simpl; try discriminate; try apply fromtimestamp_int_utc.
  destruct (utc_of_float_timestamp f); simpl; [| discriminate].
  intros [= <-]. reflexivity.
Qed.

Lemma assume_utc_aware (dt : datetime) : exists off, tzinfo (assume_utc dt) = Some off.
Proof.
  unfold assume_utc. destruct (tzinfo dt) eqn:E; simpl; eauto.
Qed.

(** Every timestamp [parse_timestamp] renders ends with a signed offset. *)
Lemma parse_timestamp_offset (v : value) (out : string) :
  parse_timestamp v = Some out ->
  exists body off rest,
    out = body +++ format_offset off
    /\ (format_offset off = String "+" rest \/ format_offset off = String "-" rest).
Proof.
  intros Hout.
  assert (Haware : exists dt off, out = isoformat dt /\ tzinfo dt = Some off).
  { unfold parse_timestamp in Hout.
    destruct (is_none v); [discriminate |].
    destruct (is_number v).
    - destruct (fromtimestamp v) as [dt|] eqn:Ef; [| discriminate].
      injection Hout as <-. exists dt, utc. split; [reflexivity |].
      now apply fromtimestamp_utc in Ef.
    - destruct v; try discriminate.
      apply try_formats_some in Hout as [fmt [dt [_ [_ ->]]]].
      destruct (assume_utc_aware dt) as [off Hoff]. eauto. }
  destruct Haware as [dt [off [-> Htz]]].
  destruct (isoformat_aware dt off Htz) as [body Hbody].
  destruct (format_offset_sign off) as [rest Hsign].
  exists body, off, rest. auto.
Qed.

(** C5, amended.  [parse_timestamp] maps null to null.  A number, and a
    boolean is one (true is 1, false is 0), is read as a UTC epoch in
    seconds: an integer within the years 1 to 9999 yields the rendering of
    its UTC time, an integer outside yields null, a float yields the
    rendering of its UTC time or null when the conversion fails.  A string
    is trimmed and tried against the six formats in order, the first that
    parses winning, a parse without timezone taken as UTC, null when none
    parses.  Every rendering ends with an explicit offset, signed [+] or
    [-].  A list or a mapping yields null. *)
Theorem parse_timestamp_by_type :
  parse_timestamp VNone = None
  /\ (forall z, parse_timestamp (VInt z)
                = if (min_timestamp <=? z) && (z <=? max_timestamp)
                  then option_map isoformat (fromtimestamp_int z)
                  else None)
  /\ (forall z, min_timestamp <= z <= max_timestamp ->
                exists dt, fromtimestamp_int z = Some dt
                           /\ parse_timestamp (VInt z) = Some (isoformat dt))
  /\ (forall b, parse_timestamp (VBool b) = parse_timestamp (VInt (Z.b2z b)))
  /\ parse_timestamp (VBool true) = Some "1970-01-01T00:00:01+00:00"
  /\ parse_timestamp (VBool false) = Some "1970-01-01T00:00:00+00:00"
  /\ (forall f, parse_timestamp (VFloat f)
                = option_map (fun dt => isoformat (replace_tzinfo dt utc))
                             (utc_of_float_timestamp f))
  /\ formats = [ "%Y-%m-%dT%H:%M:%SZ"; "%Y-%m-%dT%H:%M:%S%z"; "%Y-%m-%dT%H:%M:%S.%f%z";
                 "%Y-%m-%dT%H:%M:%S.%fZ"; "%Y-%m-%d %H:%M:%S"; "%Y-%m-%d" ]
  /\ (forall s pre fmt post dt,
         formats = pre ++ fmt :: post ->
         (forall f, In f pre -> strptime (strip s) f = None) ->
         strptime (strip s) fmt = Some dt ->
         parse_timestamp (VStr s) = Some (isoformat (assume_utc dt)))
  /\ (forall s, (forall f, In f formats -> strptime (strip s) f = None) ->
                parse_timestamp (VStr s) = None)
  /\ (forall v out, parse_timestamp v = Some out ->
                    exists body off rest,
                      out = body +++ format_offset off
                      /\ (format_offset off = String "+" rest
                          \/ format_offset off = String "-" rest))
  /\ (forall l, parse_timestamp (VList l) = None)
  /\ (forall d, parse_timestamp (VDict d) = None).
Proof.
  repeat match goal with |- _ /\ _ => split end; try reflexivity.
  - intros z. unfold parse_timestamp. simpl. unfold fromtimestamp_int.
    destruct ((min_timestamp <=? z) && (z <=? max_timestamp)); [| reflexivity].
    destruct (civil_from_days (z / 86400)) as [[y m] d]. reflexivity.
  - intros z [Hlo Hhi]. unfold parse_timestamp. simpl. unfold fromtimestamp_int.
    apply Z.leb_le in Hlo, Hhi. rewrite Hlo, Hhi. simpl.
    destruct (civil_from_days (z / 86400)) as [[y m] d]. eauto.
  - intros f. unfold parse_timestamp. simpl.
    destruct (utc_of_float_timestamp f); reflexivity.
  - intros s pre fmt post dt Hsplit Hpre Hfmt.
    change (parse_timestamp (VStr s)) with (try_formats (strip s) formats).
    rewrite Hsplit. now apply try_formats_first.
  - intros s Hall.
    change (parse_timestamp (VStr s)) with (try_formats (strip s) formats).
    now apply try_formats_none.
  - apply parse_timestamp_offset.
Qed.

(** ** [_build_location] *)

Lemma block_is_location_block (payload : dict) :
  (dict_get payload "location" orelse dict_get payload "coordinates" orelse VDict [])
  = location_block payload.
Proof.
  unfold location_block, py_or.
  destruct (truthy (dict_get payload "location")) eqn:El.
  - now rewrite El.
  - reflexivity.
Qed.





(** ** The dispatcher *)

Lemma dispatch_unsupported (record_type : string) (payload meta : dict) :
  table_get NORMALIZERS record_type = None ->
  dispatch_normalizer record_type payload meta
  = Raise (mkExn ValueError (unsupported_message record_type)).
Proof.
  intros Hnone. unfold dispatch_normalizer. rewrite Hnone. reflexivity.
Qed.


(** A record the dispatcher returns carries the requested type. *)
Lemma dispatch_record_type (kind : string) (payload meta : dict)
      (frag : fragment) (payload' : dict) :
  dispatch_normalizer kind payload meta = Ok (frag, payload') ->
  record_type frag = kind.
Proof.
  unfold dispatch_normalizer.
  destruct (table_get NORMALIZERS kind) as [norm|] eqn:Hn; [| discriminate].
  destruct (normalizers_configs kind norm Hn) as [c [_ Heq]].
  rewrite Heq. intros Hrun.
  apply normalize_with_ok in Hrun as [loc [_ [_ ->]]]. reflexivity.
Qed.

(** ** The batch loop *)

Lemma process_ingest_dispatched (req : IngestRequest.t) (db : Session) :
  _process_ingest req db
  = match dispatched req with
    | Ok (frag, payload) =>
        (Ok (row_for (List.length db) frag payload),
         db ++ [row_for (List.length db) frag payload])
    | Raise exc => (Raise exc, db)
    end.
Proof.
  unfold _process_ingest, dispatched, provider_meta_of.
  destruct (dispatch_normalizer _ _ _) as [[frag payload]|exc]; reflexivity.
Qed.

Lemma batch_loop_entries (records : list IngestRequest.t) (db : Session)
      (results : list BatchRecordResult.t) (success_count : Z) :
  batch_loop records db results success_count
  = (results ++ entries records db, success_count + accepted records,
     session_after records db).
Proof.
  revert db results success_count.
  induction records as [|item rest IH]; intros db results success_count;
    cbn [batch_loop entries accepted session_after].
  - rewrite app_nil_r, Z.add_0_r. reflexivity.
  - rewrite process_ingest_dispatched.
    destruct (dispatched item) as [[frag payload]|exc].
    + rewrite IH, <- app_assoc, Z.add_assoc. reflexivity.
    + rewrite IH, <- app_assoc. reflexivity.
Qed.

Lemma ingest_batch_entries (records : list IngestRequest.t) (db : Session) :
  ingest_batch records db
  = (BatchIngestResponse.mk (Z.of_nat (List.length records))
                            (accepted records)
                            (Z.of_nat (List.length records) - accepted records)
                            (entries records db),
     session_after records db).
Proof.
  unfold ingest_batch. rewrite batch_loop_entries. reflexivity.
Qed.

Lemma entries_length (records : list IngestRequest.t) (db : Session) :
  List.length (entries records db) = List.length records.
Proof.
  revert db. induction records as [|item rest IH]; intros db; simpl.
  - reflexivity.
  - destruct (dispatched item) as [[frag payload]|exc]; simpl; now rewrite IH.
Qed.

Lemma remove_nth_0 {A : Type} (x : A) (l : list A) : remove_nth 0 (x :: l) = l.
Proof. reflexivity. Qed.

Lemma remove_nth_S {A : Type} (k : nat) (x : A) (l : list A) :
  remove_nth (S k) (x :: l) = x :: remove_nth k l.
Proof. reflexivity. Qed.

(** A batch whose items are all accepted: every entry is a success, built
    from its own item. *)
Lemma entries_all_accepted (records : list IngestRequest.t) (db : Session) :
  (forall i req, nth_error records i = Some req -> exists out, dispatched req = Ok out) ->
  accepted records = Z.of_nat (List.length records)
  /\ forall i req, nth_error records i = Some req ->
       exists frag payload,
         dispatched req = Ok (frag, payload)
         /\ nth_error (entries records db) i
            = Some (success_entry (row_for (List.length db + i) frag payload)).
Proof.
  revert db. induction records as [|item rest IH]; intros db Hall.
  - split; [reflexivity |]. intros [|i] req; discriminate.
  - destruct (Hall 0%nat item eq_refl) as [[frag payload] Hitem].
    assert (Hrest : forall i req, nth_error rest i = Some req ->
                                  exists out, dispatched req = Ok out)
      by (intros i req Hi; apply (Hall (S i) req Hi)).
    destruct (IH (db ++ [row_for (List.length db) frag payload]) Hrest) as [Hacc Hnth].
    cbn [accepted entries]. rewrite Hitem. split.
    + rewrite Hacc. cbn [List.length]. lia.
    + intros [|i] req Hi.
      * injection Hi as <-. exists frag, payload. rewrite Nat.add_0_r. auto.
      * destruct (Hnth i req Hi) as [frag' [payload' [Hd Hn]]].
        exists frag', payload'. split; [assumption |].
        cbn [nth_error]. rewrite Hn. rewrite length_app. cbn [List.length].
        now replace (List.length db + 1 + i)%nat with (List.length db + S i)%nat by lia.
Qed.

(** C9.  In a batch of N items where item k alone has an unsupported record
    type and every other item is accepted, the response counts N items, one
    failure and N - 1 successes; its results are N entries in the order of
    the items, a failure carrying the error at position k and, at every
    other position, the success built from that position's own item; the
    other entries and the session are those of the batch without item k. *)
Theorem batch_isolates_unsupported
        (records : list IngestRequest.t) (db : Session) (k : nat) (bad : IngestRequest.t) :
  nth_error records k = Some bad ->
  table_get NORMALIZERS (IngestRequest.record_type bad) = None ->
  (forall i req, i <> k -> nth_error records i = Some req ->
                 exists out, dispatched req = Ok out) ->
  let response := fst (ingest_batch records db) in
  let N := Z.of_nat (List.length records) in
  BatchIngestResponse.total_count response = N
  /\ BatchIngestResponse.failed_count response = 1
  /\ BatchIngestResponse.success_count response = N - 1
  /\ List.length (BatchIngestResponse.results response) = List.length records
  /\ nth_error (BatchIngestResponse.results response) k
     = Some (failure_entry (unsupported_message (IngestRequest.record_type bad)))
  /\ (forall i req, i <> k -> nth_error records i = Some req ->
        exists frag payload,
          dispatched req = Ok (frag, payload)
          /\ nth_error (BatchIngestResponse.results response) i
             = Some (success_entry
                       (row_for (List.length db + i - (if (k <? i)%nat then 1 else 0))
                                frag payload)))
  /\ remove_nth k (BatchIngestResponse.results response)
     = BatchIngestResponse.results (fst (ingest_batch (remove_nth k records) db))
  /\ snd (ingest_batch records db) = snd (ingest_batch (remove_nth k records) db).
Proof.
  intros Hbad Hunsup Hothers. cbv zeta.
  rewrite !ingest_batch_entries. cbn [fst snd BatchIngestResponse.total_count
    BatchIngestResponse.failed_count BatchIngestResponse.success_count
    BatchIngestResponse.results].
  assert (Hraise : dispatched bad
                   = Raise (mkExn ValueError
                              (unsupported_message (IngestRequest.record_type bad))))
    by (unfold dispatched; now rewrite dispatch_unsupported).
  clear Hunsup.
  assert (Hmain :
    accepted records = Z.of_nat (List.length records) - 1
    /\ nth_error (entries records db) k
       = Some (failure_entry (unsupported_message (IngestRequest.record_type bad)))
    /\ (forall i req, i <> k -> nth_error records i = Some req ->
          exists frag payload,
            dispatched req = Ok (frag, payload)
            /\ nth_error (entries records db) i
               = Some (success_entry
                         (row_for (List.length db + i - (if (k <? i)%nat then 1 else 0))
                                  frag payload)))
    /\ remove_nth k (entries records db) = entries (remove_nth k records) db
    /\ session_after records db = session_after (remove_nth k records) db).
  { revert db k Hbad Hothers.
    induction records as [|item rest IH]; intros db k Hbad Hothers.
    - destruct k; discriminate.
    - destruct k as [|k].
      + injection Hbad as ->.
        assert (Hrest : forall i req, nth_error rest i = Some req ->
                                      exists out, dispatched req = Ok out).
        { intros i req Hi. apply (Hothers (S i) req); [discriminate | exact Hi]. }
        destruct (entries_all_accepted rest db Hrest) as [Hacc Hnth].
        cbn [accepted entries session_after]. rewrite Hraise.
        rewrite !remove_nth_0. cbn [nth_error exn_msg List.length].
        repeat split.
        * rewrite Hacc. lia.
        * intros [|i] req Hne Hi; [congruence |].
          destruct (Hnth i req Hi) as [frag [payload [Hd Hn]]].
          exists frag, payload. split; [assumption |].
          cbn [nth_error]. rewrite Hn.
          replace (List.length db + S i - (if (0 <? S i)%nat then 1 else 0))%nat
            with (List.length db + i)%nat by (cbn; lia).
          reflexivity.
      + assert (Hitem : exists out, dispatched item = Ok out).
        { apply (Hothers 0%nat item); [discriminate | reflexivity]. }
        destruct Hitem as [[frag payload] Hitem].
        set (db1 := db ++ [row_for (List.length db) frag payload]).
        assert (Hrest : forall i req, i <> k -> nth_error rest i = Some req ->
                                      exists out, dispatched req = Ok out).
        { intros i req Hne Hi. apply (Hothers (S i) req); [congruence | exact Hi]. }
        destruct (IH db1 k Hbad Hrest) as [Hacc [Hk [Hnth [Hrem Hses]]]].
        cbn [accepted entries session_after]. rewrite Hitem. fold db1.
        rewrite !remove_nth_S.
        cbn [nth_error List.length accepted entries session_after].
        rewrite Hitem. fold db1.
        repeat split.
        * rewrite Hacc. lia.
        * exact Hk.
        * intros [|i] req Hne Hi.
          -- injection Hi as <-. exists frag, payload. split; [assumption |].
             cbn [nth_error]. rewrite Nat.add_0_r, Nat.sub_0_r. reflexivity.
          -- assert (Hne' : i <> k) by congruence.
             destruct (Hnth i req Hne' Hi) as [frag' [payload' [Hd Hn]]].
             exists frag', payload'. split; [assumption |].
             cbn [nth_error]. rewrite Hn. unfold db1. rewrite length_app.
             cbn [List.length].
             change (S k <? S i)%nat with (k <? i)%nat.
             destruct (k <? i)%nat eqn:Elt.
             ++ apply Nat.ltb_lt in Elt. do 3 f_equal. lia.
             ++ do 3 f_equal. lia.
        * now rewrite Hrem.
        * exact Hses. }
  destruct Hmain as [Hacc [Hk [Hnth [Hrem Hses]]]].
  repeat split; try assumption.
  - rewrite Hacc. lia.
  - apply entries_length.
Qed.

(** ** Where the code departs from its specification *)

(** C1.  A bulletin payload whose [metrics] mapping is not empty and that
    also holds the top-level metric key [travel_advice]: the overlay step
    writes [travel_advice] into the caller's [metrics] mapping, and the raw
    payload column of the row then written holds the rewritten payload, not
    the submitted one. *)
Theorem normalizer_rewrites_payload_metrics (meta : dict) (pid pname : string) (db : Session) :
  let payload :=
    [ ("metrics", VDict [("stations", VInt 3)]); ("travel_advice", VStr "Avoid steep slopes") ] in
  let rewritten :=
    [ ("metrics", VDict [("stations", VInt 3); ("travel_advice", VStr "Avoid steep slopes")]);
      ("travel_advice", VStr "Avoid steep slopes") ] in
  (exists frag, normalize_bulletin payload meta = Ok (frag, rewritten))
  /\ (exists row,
        _process_ingest (IngestRequest.mk pid pname "bulletin" payload) db
        = (Ok row, db ++ [row])
        /\ NormalizedRecord.raw_payload_json row = json_dumps (VDict rewritten))
  /\ json_dumps (VDict rewritten) <> json_dumps (VDict payload).
Proof.
  cbv zeta. split; [| split].
  - eexists. reflexivity.
  - eexists. split; reflexivity.
  - intros H. vm_compute in H. discriminate H.
Qed.

(** C3.  A payload with a top-level [lat] of 0 and no [lon]: the value 0
    coerces to the float 0.0, yet [extract_coordinates] returns null for
    the latitude; and with a nested location present, the nested
    coordinates replace the top-level latitude. *)
Theorem zero_latitude_is_dropped :
  py_float (VInt 0) = Ok float_zero
  /\ extract_coordinates [("lat", VInt 0)] = Ok (None, None)
  /\ extract_coordinates [("lat", VFloat float_zero)] = Ok (None, None)
  /\ extract_coordinates
       [ ("lat", VInt 0); ("location", VDict [("lat", VInt 44); ("lon", VInt (-110))]) ]
     = Ok (Some (binary_normalize 53 1024 44 0 false),
           Some (binary_normalize 53 1024 (-110) 0 false)).
Proof.
  repeat split; reflexivity.
Qed.

(** C4.  A payload whose only timestamp candidate is the epoch 0 under the
    first candidate key of its type: the epoch parses, yet the record has a
    null event time and the [missing_timestamp] flag. *)
Theorem epoch_zero_is_flagged_missing (meta : dict) :
  parse_timestamp (VInt 0) = Some "1970-01-01T00:00:00+00:00"
  /\ (exists frag, normalize_bulletin [("issued_at", VInt 0)] meta
                   = Ok (frag, [("issued_at", VInt 0)])
                   /\ event_time frag = None
                   /\ In "missing_timestamp" (quality_flags frag))
  /\ (exists frag, normalize_observation [("observed_at", VInt 0)] meta
                   = Ok (frag, [("observed_at", VInt 0)])
                   /\ event_time frag = None
                   /\ In "missing_timestamp" (quality_flags frag))
  /\ (exists frag, normalize_weather [("recorded_at", VInt 0)] meta
                   = Ok (frag, [("recorded_at", VInt 0)])
                   /\ event_time frag = None
                   /\ In "missing_timestamp" (quality_flags frag)).
Proof.
  split; [reflexivity |].
  repeat split; eexists; (split; [reflexivity | split; [reflexivity | simpl; auto]]).
Qed.

(** C6.  For each supported record type, a payload whose [lat] is the
    integer 10^400: the dispatcher returns no record, an [OverflowError]
    leaves it. *)
Theorem dispatch_supported_type_raises (meta : dict) :
  let overflow := Raise (mkExn OverflowError "int too large to convert to float") in
  dispatch_normalizer "bulletin" [("lat", VInt (10 ^ 400))] meta = overflow
  /\ dispatch_normalizer "observation" [("lat", VInt (10 ^ 400))] meta = overflow
  /\ dispatch_normalizer "weather" [("lat", VInt (10 ^ 400))] meta = overflow.
Proof.
  repeat split; vm_compute; reflexivity.
Qed.

(** C8.  Payloads of JSON values on which the normalizers raise: a
    coordinate that is an integer too large for a float, and an elevation
    that is the float infinity.  The coercions catch [ValueError] and
    [TypeError] only. *)
Theorem normalizers_raise_overflow (meta : dict) :
  let too_large := Raise (mkExn OverflowError "int too large to convert to float") in
  let infinite := Raise (mkExn OverflowError "cannot convert float infinity to integer") in
  normalize_bulletin [("lat", VInt (10 ^ 400))] meta = too_large
  /\ normalize_observation [("lon", VInt (10 ^ 400))] meta = too_large
  /\ normalize_weather [("location", VDict [("lat", VInt (10 ^ 400))])] meta = too_large
  /\ normalize_bulletin [("elevation", VFloat (S754_infinity false))] meta = infinite
  /\ normalize_observation [("elevation_ft", VFloat (S754_infinity true))] meta = infinite
  /\ normalize_weather [("location", VDict [("elevation", VFloat (S754_infinity false))])] meta
     = infinite.
Proof.
  repeat split; vm_compute; reflexivity.
Qed.

(** ** What does hold next to the departures *)

Lemma coerce_float_raises (x : value) (e : exn) :
  coerce_float x = Raise e -> exn_cls e = OverflowError.
Proof.
  unfold coerce_float, try_except.
  destruct (is_none x); [discriminate |].
  destruct (py_float x) as [f|[cls msg]]; simpl; [discriminate |].
  destruct cls; simpl; try discriminate. intros [= <-]. reflexivity.
Qed.


Lemma extract_coordinates_raises (payload : dict) (e : exn) :
  extract_coordinates payload = Raise e -> exn_cls e = OverflowError.
Proof.
  unfold extract_coordinates.
  match goal with
  | |- (let '(lat, lon) := ?p in _) = _ -> _ => destruct p as [lat lon]
  end.
  destruct (coerce_float lat) as [lat'|e1] eqn:Elat; simpl.
  - destruct (coerce_float lon) as [lon'|e2] eqn:Elon; simpl; [discriminate |].
    intros [= <-]. now apply coerce_float_raises in Elon.
  - intros [= <-]. now apply coerce_float_raises in Elat.
Qed.



(** A normalizer returns a record exactly when the location builder does. *)
Lemma normalizer_returns_iff (kind : string) (norm : normalizer) (c : config)
      (payload meta : dict) :
  table_get NORMALIZERS kind = Some norm ->
  table_get CONFIGS kind = Some c ->
  (exists out, norm payload meta = Ok out)
  <-> exists loc, _build_location (payload_after (cfg_metric_keys c) payload) = Ok loc.
Proof.
  intros Hnorm Hcfg. destruct (normalizers_configs kind norm Hnorm) as [c' [Hc' Heq]].
  rewrite Hcfg in Hc'. injection Hc' as <-. rewrite Heq. unfold normalize_with.
  destruct (validate_metrics _) as [m fl].
  destruct (_build_location _) as [loc|e1]; simpl; split.
  - intros _. eauto.
  - intros _. eauto.
  - intros [out H]. discriminate.
  - intros [loc H]. discriminate.
Qed.

(** The payload object is written under [metrics] only, and not at all
    when its [metrics] entry is missing, empty or not a mapping. *)
Lemma payload_after_frame (keys : list string) (payload : dict) :
  mem "metrics" keys = false ->
  (forall k, k <> "metrics" ->
             dict_get (payload_after keys payload) k = dict_get payload k)
  /\ (metrics_base payload = [] -> payload_after keys payload = payload).
Proof.
  intros Hm. unfold payload_after.
  destruct (bind_raw_metrics_cases payload) as [[-> Hbase] | [-> [Hd Hne]]].
  - destruct (overlay_fresh keys payload []) as [Hp _]. cbv zeta in Hp.
    rewrite Hp. auto.
  - destruct (overlay_alias keys payload Hm (mkStore payload []) _ Hd
                (fun k _ => eq_refl)) as [Ho _].
    split; [exact Ho | intros Hbase; contradiction].
Qed.

(** X21.  The [missing_timestamp] flag of a returned record is present
    exactly when the value the [or] chain over the type's timestamp keys
    selects does not parse: the first truthy candidate decides alone, or
    the last candidate when none is truthy. *)
Lemma missing_timestamp_iff (kind : string) (norm : normalizer) (c : config)
      (payload meta : dict) (frag : fragment) (payload' : dict) :
  table_get NORMALIZERS kind = Some norm ->
  table_get CONFIGS kind = Some c ->
  norm payload meta = Ok (frag, payload') ->
  In "missing_timestamp" (quality_flags frag)
  <-> parse_timestamp (first_truthy payload (cfg_time_keys c)) = None.
Proof.
  intros Hnorm Hcfg Hrun.
  destruct (normalizers_configs kind norm Hnorm) as [c' [Hc' Heq]].
  rewrite Hcfg in Hc'. injection Hc' as <-. rewrite Heq in Hrun.
  apply normalize_with_ok in Hrun as [loc [_ [_ Hfrag]]].
  cbv zeta in Hfrag. rewrite merged_flags in Hfrag. subst frag.
  cbn [quality_flags set_quality_flags].
  unfold base_flags. cbn [event_time].
  set (t := parse_timestamp (first_truthy payload (cfg_time_keys c))).
  assert (Hempty : is_empty_opt t = true <-> t = None).
  { destruct t as [out|] eqn:Et; simpl; [| tauto].
    split; [| discriminate]. intros Hz. apply String.eqb_eq in Hz. subst out.
    destruct (parse_timestamp_offset _ _ Et) as [body [off [rest [Hout Hsign]]]].
    destruct body; simpl in Hout; [| discriminate].
    destruct Hsign as [Hs | Hs]; rewrite Hs in Hout; discriminate. }
  rewrite <- Hempty. unfold flag_if.
  repeat rewrite in_app_iff.
  destruct (is_empty_opt t); simpl.
  - split; auto.
  - split; [| discriminate].
    destruct (is_null _ || is_null _), (String.eqb _ "unknown"),
      (String.eqb (strip _) EmptyString), (existsb dropped _); simpl;
      intuition discriminate.
Qed.

(** * Further properties of the code *)

(** ** Trimming and case *)

Lemma lstrip_by_head (p : ascii -> bool) (s : string) :
  lstrip_by p s = EmptyString
  \/ exists c r, lstrip_by p s = String c r /\ p c = false.
Proof.
  induction s as [|c r IH]; simpl; [auto |].
  destruct (p c) eqn:Ec; [exact IH | right; eauto].
Qed.

Lemma rstrip_by_head (p : ascii -> bool) (c : ascii) (r : string) :
  p c = false -> exists r', rstrip_by p (String c r) = String c r'.
Proof.
  intros Hc. simpl. destruct (rstrip_by p r); [rewrite Hc |]; eauto.
Qed.

Lemma rstrip_by_idempotent (p : ascii -> bool) (s : string) :
  rstrip_by p (rstrip_by p s) = rstrip_by p s.
Proof.
  induction s as [|c r IH]; simpl; [reflexivity |].
  destruct (rstrip_by p r) as [|c' r'] eqn:Er.
  - destruct (p c) eqn:Ec; simpl; [reflexivity | now rewrite Ec].
  - simpl. simpl in IH. destruct (rstrip_by p r') eqn:Er'.
    + destruct (p c'); [discriminate | now rewrite IH].
    + now rewrite IH.
Qed.

Lemma strip_idempotent (s : string) : strip (strip s) = strip s.
Proof.
  unfold strip.
  destruct (lstrip_by_head is_space s) as [-> | [c [r [-> Hc]]]]; [reflexivity |].
  destruct (rstrip_by_head is_space c r Hc) as [r' Hr]. rewrite Hr.
  simpl lstrip_by. rewrite Hc, <- Hr. apply rstrip_by_idempotent.
Qed.

Lemma lstrip_by_padding (p : ascii -> bool) (pre t : string) :
  all_chars p pre = true -> lstrip_by p (pre +++ t) = lstrip_by p t.
Proof.
  induction pre as [|c pre IH]; simpl; [reflexivity |].
  intros H. apply andb_prop in H as [Hc Hpre]. rewrite Hc. now apply IH.
Qed.

Lemma rstrip_by_all (p : ascii -> bool) (post : string) :
  all_chars p post = true -> rstrip_by p post = EmptyString.
Proof.
  induction post as [|c post IH]; simpl; [reflexivity |].
  intros H. apply andb_prop in H as [Hc Hpost]. now rewrite IH, Hc.
Qed.

Lemma rstrip_by_padding (p : ascii -> bool) (t post : string) :
  all_chars p post = true -> rstrip_by p (t +++ post) = rstrip_by p t.
Proof.
  intros Hpost. induction t as [|c t IH]; simpl.
  - now apply rstrip_by_all.
  - now rewrite IH.
Qed.

Lemma lstrip_by_append (p : ascii -> bool) (s post : string) :
  all_chars p post = true ->
  rstrip_by p (lstrip_by p (s +++ post)) = rstrip_by p (lstrip_by p s).
Proof.
  intros Hpost. induction s as [|c s IH]; simpl.
  - replace (lstrip_by p post) with EmptyString; [reflexivity |].
    clear -Hpost. induction post as [|c post IH]; simpl; [reflexivity |].
    simpl in Hpost. apply andb_prop in Hpost as [Hc Hpost]. rewrite Hc. now apply IH.
  - destruct (p c); [exact IH |].
    change (String c (s +++ post)) with (String c s +++ post).
    now apply rstrip_by_padding.
Qed.

(** Whitespace around a string does not survive [strip]. *)
Lemma strip_padding (pre s post : string) :
  all_chars is_space pre = true -> all_chars is_space post = true ->
  strip (pre +++ s +++ post) = strip s.
Proof.
  intros Hpre Hpost. unfold strip.
  rewrite lstrip_by_padding by assumption. now apply lstrip_by_append.
Qed.

Lemma lower_char_idempotent (c : ascii) : lower_char (lower_char c) = lower_char c.
Proof. destruct c as [[] [] [] [] [] [] [] []]; reflexivity. Qed.

Lemma lower_char_space (c : ascii) : is_space (lower_char c) = is_space c.
Proof. destruct c as [[] [] [] [] [] [] [] []]; reflexivity. Qed.

Lemma lower_idempotent (s : string) : lower (lower s) = lower s.
Proof.
  induction s as [|c s IH]; simpl; [reflexivity |].
  now rewrite lower_char_idempotent, IH.
Qed.

Lemma lower_lstrip (s : string) : lstrip_by is_space (lower s) = lower (lstrip_by is_space s).
Proof.
  induction s as [|c s IH]; simpl; [reflexivity |].
  rewrite lower_char_space. destruct (is_space c); [exact IH | reflexivity].
Qed.

Lemma lower_rstrip (s : string) : rstrip_by is_space (lower s) = lower (rstrip_by is_space s).
Proof.
  induction s as [|c s IH]; simpl; [reflexivity |].
  rewrite IH, lower_char_space.
  destruct (rstrip_by is_space s); simpl; [destruct (is_space c) |]; reflexivity.
Qed.

Lemma lower_strip (s : string) : lower (strip s) = strip (lower s).
Proof.
  unfold strip. now rewrite lower_lstrip, lower_rstrip.
Qed.

(** ** [normalize_severity] *)

Lemma normalize_severity_in_levels (value : option string) :
  In (normalize_severity value) LEVELS.
Proof.
  unfold normalize_severity, LEVELS. destruct value as [s|]; [| simpl; auto 10].
  unfold SEVERITY_MAP. cbn [table_get].
  repeat (destruct (String.eqb _ (lower (strip s))); [simpl; auto 10 |]).
  simpl; auto 10.
Qed.

(** X1.  [normalize_severity] always returns one of the six severity
    levels, and a level it returns is a fixed point: normalizing it again
    gives the same level. *)
Theorem normalize_severity_levels (value : option string) :
  In (normalize_severity value) LEVELS
  /\ normalize_severity (Some (normalize_severity value)) = normalize_severity value.
Proof.
  split; [apply normalize_severity_in_levels |].
  pose proof (normalize_severity_in_levels value) as H. unfold LEVELS in H. simpl in H.
  destruct H as [H | [H | [H | [H | [H | [H | []]]]]]]; rewrite <- H; reflexivity.
Qed.

(** X2.  [normalize_severity] ignores letter case and surrounding
    whitespace: two strings with the same lower-casing get the same level,
    and whitespace added before and after a string does not change its
    level. *)
Theorem normalize_severity_insensitive :
  (forall s t, lower s = lower t ->
               normalize_severity (Some s) = normalize_severity (Some t))
  /\ (forall pre s post,
         all_chars is_space pre = true -> all_chars is_space post = true ->
         normalize_severity (Some (pre +++ s +++ post)) = normalize_severity (Some s)).
Proof.
  split.
  - intros s t Hst. unfold normalize_severity.
    now rewrite !lower_strip, Hst.
  - intros pre s post Hpre Hpost. unfold normalize_severity.
    now rewrite strip_padding.
Qed.

(** ** [safe_str] *)

Lemma safe_str_strip (value : value) : strip (safe_str value) = safe_str value.
Proof.
  unfold safe_str.
  destruct (is_none value); [reflexivity | apply strip_idempotent].
Qed.

Lemma str_or_none_trimmed (value : value) (n : string) :
  str_or_none (safe_str value) = Some n -> n <> EmptyString /\ strip n = n.
Proof.
  unfold str_or_none. destruct (String.eqb (safe_str value) EmptyString) eqn:E; [discriminate |].
  intros [= <-]. apply String.eqb_neq in E. split; [assumption | apply safe_str_strip].
Qed.

(** X3.  [safe_str] gives the empty string for null, the trimmed string for
    a string, and in every case a string without whitespace at either end:
    trimming its result changes nothing. *)
Theorem safe_str_trimmed (value : value) :
  strip (safe_str value) = safe_str value
  /\ safe_str VNone = EmptyString
  /\ (forall s, safe_str (VStr s) = strip s).
Proof.
  repeat split. apply safe_str_strip.
Qed.

(** ** [validate_metrics], once more *)

Lemma filter_kept_dropped (d : dict) :
  filter kept (filter kept d) = filter kept d
  /\ filter dropped (filter kept d) = []
  /\ (List.length (filter kept d) + List.length (filter dropped d) = List.length d)%nat.
Proof.
  assert (Hneg : forall kv, dropped kv = negb (kept kv)) by reflexivity.
  induction d as [|kv d [IH1 [IH2 IH3]]]; [simpl; auto |].
  cbn [filter]. rewrite Hneg.
  destruct (kept kv) eqn:Ev; cbn [negb filter List.length].
  - rewrite Ev, Hneg, Ev. cbn [negb]. rewrite IH1, IH2. repeat split; lia.
  - repeat split; try assumption. lia.
Qed.

Lemma filter_wf (f : string * value -> bool) (d : dict) : dict_wf d -> dict_wf (filter f d).
Proof.
  unfold dict_wf, dict_keys. induction d as [|kv d IH]; simpl; intros Hnd; [constructor |].
  inversion Hnd as [|? ? Hk Hd]; subst.
  destruct (f kv); simpl; [| now apply IH].
  constructor; [| now apply IH].
  intros Hin. apply Hk. apply in_map_iff in Hin as [x [Hx Hin]].
  apply in_map_iff. exists x. split; [assumption |].
  apply filter_In in Hin. tauto.
Qed.

(** X4.  On a mapping, [validate_metrics] splits the entries in two: the
    cleaned mapping holds the scalar entries in their order with their
    values, one flag is raised per entry left out, and validating the
    cleaned mapping again keeps all of it and raises no flag. *)
Theorem validate_metrics_partition (d : dict) :
  dict_wf d ->
  (forall k v, dict_lookup (fst (validate_metrics d)) k = Some v
               <-> dict_lookup d k = Some v /\ is_metric_scalar v = true)
  /\ (List.length (fst (validate_metrics d)) + List.length (snd (validate_metrics d))
      = List.length d)%nat
  /\ validate_metrics (fst (validate_metrics d)) = (fst (validate_metrics d), []).
Proof.
  intros Hwf. rewrite (validate_metrics_filter d Hwf). cbn [fst snd].
  destruct (filter_kept_dropped d) as [H1 [H2 H3]].
  split; [| split].
  - intros k v. rewrite dict_lookup_filter_kept by assumption.
    destruct (dict_lookup d k) as [x|]; simpl.
    + destruct (is_metric_scalar x) eqn:Ex; split.
      * intros [= <-]. auto.
      * intros [[= <-] _]. reflexivity.
      * discriminate.
      * intros [[= <-] Hv]. congruence.
    + split; [discriminate | intros [H _]; discriminate].
  - rewrite length_map. exact H3.
  - rewrite (validate_metrics_filter _ (filter_wf kept d Hwf)).
    now rewrite H1, H2.
Qed.

(** ** [extract_coordinates], once more *)

(** X5.  When a top-level coordinate is selected, that is, when the value
    of [lat or latitude] or of [lon or longitude] is not null,
    [extract_coordinates] coerces these two values and reads nothing else:
    any payload with the same four top-level keys gives the same result,
    whatever its [location] or [coordinates]. *)
Theorem top_level_coordinates_first (payload other : dict) :
  let lat := dict_get payload "lat" orelse dict_get payload "latitude" in
  let lon := dict_get payload "lon" orelse dict_get payload "longitude" in
  is_none lat && is_none lon = false ->
  (forall k, In k COORDINATE_KEYS -> dict_get other k = dict_get payload k) ->
  extract_coordinates payload
  = (lat' <- coerce_float lat ;; lon' <- coerce_float lon ;; Ok (lat', lon'))
  /\ extract_coordinates other = extract_coordinates payload.
Proof.
  cbv zeta. intros Hsel Hsame.
  assert (Hp : extract_coordinates payload
               = (lat' <- coerce_float (dict_get payload "lat" orelse dict_get payload "latitude") ;;
                  lon' <- coerce_float (dict_get payload "lon" orelse dict_get payload "longitude") ;;
                  Ok (lat', lon'))).
  { unfold extract_coordinates. rewrite Hsel. reflexivity. }
  split; [exact Hp |].
  rewrite Hp. unfold extract_coordinates.
  rewrite !Hsame by (unfold COORDINATE_KEYS; simpl; auto).
  rewrite Hsel. reflexivity.
Qed.

Lemma extract_coordinates_none (payload : dict) :
  is_none (dict_get payload "lat" orelse dict_get payload "latitude")
  && is_none (dict_get payload "lon" orelse dict_get payload "longitude") = true ->
  is_dict (dict_get payload "location" orelse dict_get payload "coordinates") = false ->
  extract_coordinates payload = Ok (None, None).
Proof.
  intros Hsel Hloc. unfold extract_coordinates. rewrite Hsel.
  apply andb_prop in Hsel as [Hlat Hlon].
  destruct (dict_get payload "location" orelse dict_get payload "coordinates");
    try discriminate;
    destruct (dict_get payload "lat" orelse dict_get payload "latitude"); try discriminate;
    destruct (dict_get payload "lon" orelse dict_get payload "longitude"); try discriminate;
    reflexivity.
Qed.

(** X6.  With no top-level coordinate selected and no mapping under
    [location] or [coordinates], [extract_coordinates] returns two nulls;
    it never raises a [ValueError] or a [TypeError]. *)
Theorem coordinates_absent (payload : dict) :
  (is_none (dict_get payload "lat" orelse dict_get payload "latitude")
   && is_none (dict_get payload "lon" orelse dict_get payload "longitude") = true ->
   is_dict (dict_get payload "location" orelse dict_get payload "coordinates") = false ->
   extract_coordinates payload = Ok (None, None))
  /\ (forall e, extract_coordinates payload = Raise e -> exn_cls e = OverflowError).
Proof.
  split; [apply extract_coordinates_none | apply extract_coordinates_raises].
Qed.

(** ** The location name *)

(** X7.  The name of a built location is never the empty string and never
    has whitespace at either end; it is the trimmed [name] of the location
    block when that is a mapping with a non-empty trimmed name, and
    otherwise the trimmed top-level [location_name], or null when that is
    empty. *)
Theorem location_name_rule (payload : dict) (loc : location) :
  _build_location payload = Ok loc ->
  (forall n, loc_name loc = Some n -> n <> EmptyString /\ strip n = n)
  /\ loc_name loc
     = match location_block payload with
       | VDict block =>
           match str_or_none (safe_str (dict_get block "name")) with
           | Some n => Some n
           | None => str_or_none (safe_str (dict_get payload "location_name"))
           end
       | _ => str_or_none (safe_str (dict_get payload "location_name"))
       end.
Proof.
  intros Hloc.
  assert (Hname : loc_name loc
     = match location_block payload with
       | VDict block =>
           match str_or_none (safe_str (dict_get block "name")) with
           | Some n => Some n
           | None => str_or_none (safe_str (dict_get payload "location_name"))
           end
       | _ => str_or_none (safe_str (dict_get payload "location_name"))
       end).
  { unfold _build_location in Hloc.
    destruct (extract_coordinates payload) as [[lat lon]|ex]; simpl in Hloc; [| discriminate].
    rewrite block_is_location_block in Hloc.
    destruct (location_block payload) as [| b | z | f | s | l | block];
      match type of Hloc with
      | context [coerce_int ?c] =>
          destruct (coerce_int c) as [e|ex]; simpl in Hloc; [| discriminate];
          injection Hloc as <-; reflexivity
      end. }
  split; [| exact Hname].
  intros n Hn. rewrite Hname in Hn.
  destruct (location_block payload) as [| b | z | f | s | l | block];
    try (now apply str_or_none_trimmed in Hn).
  destruct (str_or_none (safe_str (dict_get block "name"))) as [m|] eqn:Em.
  - injection Hn as ->. now apply str_or_none_trimmed in Em.
  - now apply str_or_none_trimmed in Hn.
Qed.

(** ** The candidate an [or] chain selects *)

Lemma fold_or_falsy (payload : dict) (keys : list string) (v : value) :
  truthy v = true ->
  fold_left (fun acc k' => acc orelse dict_get payload k') keys v = v.
Proof.
  revert v. induction keys as [|k keys IH]; intros v Hv; simpl; [reflexivity |].
  unfold py_or at 2. rewrite Hv. now apply IH.
Qed.

(** X8.  The value an [or] chain over candidate keys selects is the value
    of the first key whose value is truthy; when no candidate is truthy it
    is the value of the last key, whatever that is. *)
Theorem first_truthy_selects (payload : dict) (keys : list string) :
  (forall pre k post,
      keys = pre ++ k :: post ->
      (forall k', In k' pre -> truthy (dict_get payload k') = false) ->
      truthy (dict_get payload k) = true ->
      first_truthy payload keys = dict_get payload k)
  /\ (forall pre k,
         keys = pre ++ [k] ->
         (forall k', In k' pre -> truthy (dict_get payload k') = false) ->
         first_truthy payload keys = dict_get payload k).
Proof.
  assert (Hgen : forall pre k post v,
             truthy v = false ->
             (forall k', In k' pre -> truthy (dict_get payload k') = false) ->
             (truthy (dict_get payload k) = true \/ post = []) ->
             fold_left (fun acc k' => acc orelse dict_get payload k') (pre ++ k :: post) v
             = dict_get payload k).
  { induction pre as [|p pre IH]; intros k post v Hv Hpre Hk; simpl.
    - unfold py_or at 2. rewrite Hv.
      destruct Hk as [Hk | ->]; [now apply fold_or_falsy | reflexivity].
    - unfold py_or at 2. rewrite Hv. apply IH; [| | assumption].
      + apply Hpre. left. reflexivity.
      + intros k' Hk'. apply Hpre. right. assumption. }
  split.
  - intros pre k post -> Hpre Hk. unfold first_truthy.
    destruct pre as [|p pre]; simpl.
    + now apply fold_or_falsy.
    + apply Hgen; [apply Hpre; left; reflexivity | | left; assumption].
      intros k' Hk'. apply Hpre. right. assumption.
  - intros pre k -> Hpre. unfold first_truthy.
    destruct pre as [|p pre]; simpl; [reflexivity |].
    apply Hgen; [apply Hpre; left; reflexivity | | right; reflexivity].
    intros k' Hk'. apply Hpre. right. assumption.
Qed.

(** ** The record a normalizer returns *)

Lemma dict_set_In (d : dict) (k : string) (v : value) (kv : string * value) :
  In kv (dict_set d k v) -> kv = (k, v) \/ In kv d.
Proof.
  induction d as [|[k0 v0] d IH]; simpl.
  - intros [<- | []]. auto.
  - destruct (String.eqb k0 k); simpl.
    + intros [<- | H]; auto.
    + intros [<- | H]; [auto |]. destruct (IH H); auto.
Qed.

Lemma validate_loop_scalar (items cleaned : dict) (flags : list string) :
  (forall kv, In kv cleaned -> kept kv = true) ->
  forall kv, In kv (fst (validate_loop items cleaned flags)) -> kept kv = true.
Proof.
  revert cleaned flags. induction items as [|[k v] items IH]; intros cleaned flags Hc; simpl.
  - exact Hc.
  - destruct (is_metric_scalar v) eqn:Ev; simpl.
    + apply IH. intros kv Hin. apply dict_set_In in Hin as [-> | Hin]; [exact Ev | now apply Hc].
    + now apply IH.
Qed.

Lemma parse_timestamp_nonempty (v : value) : parse_timestamp v <> Some EmptyString.
Proof.
  intros H. destruct (parse_timestamp_offset _ _ H) as [body [off [rest [Hout Hsign]]]].
  destruct body; simpl in Hout; [| discriminate].
  destruct Hsign as [Hs | Hs]; rewrite Hs in Hout; discriminate.
Qed.

Lemma flags_membership (frag : fragment) (b : bool) :
  let flags := base_flags frag ++ flag_if b "invalid_metric_type" in
  (In "missing_coordinates" flags
   <-> is_null (loc_lat (frag_location frag)) || is_null (loc_lon (frag_location frag)) = true)
  /\ (In "missing_timestamp" flags <-> is_empty_opt (event_time frag) = true)
  /\ (In "unknown_severity" flags <-> String.eqb (severity frag) "unknown" = true)
  /\ (In "empty_summary" flags <-> String.eqb (strip (summary frag)) EmptyString = true)
  /\ (In "invalid_metric_type" flags <-> b = true)
  /\ (forall f, In f flags -> In f FLAGS).
Proof.
  unfold base_flags, flag_if, FLAGS.
  destruct (is_null _ || is_null _), (is_empty_opt _), (String.eqb (severity frag) _),
    (String.eqb (strip _) _), b; simpl;
    repeat split; intros; try reflexivity; try discriminate;
    try (simpl; auto 10; fail);
    try (exfalso; intuition discriminate);
    intuition (subst; auto 10).
Qed.

(** X9.  Every record a normalizer returns is well formed: it carries the
    requested type, a severity among the six levels, a region, summary and
    provider fields without whitespace at either end (the region null
    rather than empty), an event time that is null or a non-empty string,
    metrics whose values are all scalars, and flags among the five known
    ones. *)
Theorem fragment_well_formed (kind : string) (norm : normalizer)
        (payload meta : dict) (frag : fragment) (payload' : dict) :
  table_get NORMALIZERS kind = Some norm ->
  norm payload meta = Ok (frag, payload') ->
  record_type frag = kind
  /\ In (severity frag) LEVELS
  /\ (forall r, region frag = Some r -> r <> EmptyString /\ strip r = r)
  /\ strip (summary frag) = summary frag
  /\ strip (provider_id frag) = provider_id frag
  /\ strip (provider_name frag) = provider_name frag
  /\ event_time frag <> Some EmptyString
  /\ (forall k v, In (k, v) (metrics frag) -> is_metric_scalar v = true)
  /\ (forall f, In f (quality_flags frag) -> In f FLAGS).
Proof.
  intros Hnorm Hrun.
  destruct (normalizers_configs kind norm Hnorm) as [c [_ Heq]].
  rewrite Heq in Hrun.
  apply normalize_with_ok in Hrun as [loc [_ [_ Hfrag]]].
  cbv zeta in Hfrag. rewrite merged_flags in Hfrag. subst frag.
  cbn [record_type severity region summary provider_id provider_name event_time
       metrics quality_flags set_quality_flags].
  repeat split.
  - apply normalize_severity_in_levels.
  - now apply str_or_none_trimmed in H.
  - now apply str_or_none_trimmed in H.
  - apply safe_str_strip.
  - apply safe_str_strip.
  - apply safe_str_strip.
  - apply parse_timestamp_nonempty.
  - intros k v Hin. unfold validate_metrics in Hin.
    apply validate_loop_scalar in Hin; [exact Hin | intros kv []].
  - apply flags_membership.
Qed.

(** X10.  In every record a normalizer returns, each condition flag is
    present exactly when its condition holds of the record:
    [missing_coordinates] when lat or lon is null, [missing_timestamp] when
    the event time is null, [unknown_severity] when the severity is
    [unknown], [empty_summary] when the summary is the empty string. *)
Theorem flags_iff_conditions (kind : string) (norm : normalizer)
        (payload meta : dict) (frag : fragment) (payload' : dict) :
  table_get NORMALIZERS kind = Some norm ->
  norm payload meta = Ok (frag, payload') ->
  (In "missing_coordinates" (quality_flags frag)
   <-> loc_lat (frag_location frag) = None \/ loc_lon (frag_location frag) = None)
  /\ (In "missing_timestamp" (quality_flags frag) <-> event_time frag = None)
  /\ (In "unknown_severity" (quality_flags frag) <-> severity frag = "unknown")
  /\ (In "empty_summary" (quality_flags frag) <-> summary frag = EmptyString).
Proof.
  intros Hnorm Hrun.
  destruct (normalizers_configs kind norm Hnorm) as [c [_ Heq]].
  rewrite Heq in Hrun.
  apply normalize_with_ok in Hrun as [loc [_ [_ Hfrag]]].
  cbv zeta in Hfrag. rewrite merged_flags in Hfrag.
  match type of Hfrag with
  | frag = set_quality_flags ?r (base_flags ?r ++ flag_if ?b _) =>
      destruct (flags_membership r b) as [Hc [Ht [Hs [He _]]]];
      set (record := r) in *
  end.
  assert (Hq : quality_flags frag
               = base_flags record ++ flag_if (existsb dropped
                   (raw_metrics_of (cfg_metric_keys c) payload)) "invalid_metric_type")
    by (subst frag; reflexivity).
  assert (Hloc : frag_location frag = frag_location record) by (subst frag; reflexivity).
  assert (Het : event_time frag = event_time record) by (subst frag; reflexivity).
  assert (Hsev : severity frag = severity record) by (subst frag; reflexivity).
  assert (Hsum : summary frag = summary record) by (subst frag; reflexivity).
  rewrite Hq, Hloc, Het, Hsev, Hsum. cbv zeta in Hc, Ht, Hs, He.
  split; [| split; [| split]].
  - rewrite Hc. destruct (loc_lat _), (loc_lon _); simpl;
      intuition (try discriminate; try reflexivity).
  - rewrite Ht. destruct (event_time record) as [t|] eqn:Et; simpl.
    + split; [| discriminate]. intros Hz. apply String.eqb_eq in Hz. subst t.
      exfalso. subst record. cbn [event_time] in Et.
      exact (parse_timestamp_nonempty _ Et).
    + tauto.
  - rewrite Hs. apply String.eqb_eq.
  - rewrite He. subst record. cbn [summary]. rewrite safe_str_strip. apply String.eqb_eq.
Qed.

(** ** What a normalizer writes to its payload *)

Lemma overlay_alias_metrics (keys : list string) (s : store) (d : dict) :
  dict_get (payload_obj s) "metrics" = VDict d ->
  exists d', dict_get (payload_obj (overlay keys PayloadMetrics s)) "metrics" = VDict d'.
Proof.
  revert s d. induction keys as [|key keys IH]; intros s d Hd; cbn [overlay]; [eauto |].
  destruct (negb (is_none (dict_get (payload_obj s) key))); [| now apply (IH s d)].
  apply (IH _ (dict_set (deref s PayloadMetrics) key (dict_get (payload_obj s) key))).
  cbn [setitem payload_obj]. now rewrite dict_get_set, String.eqb_refl.
Qed.

(** X11.  A normalizer that returns leaves every top-level entry of the
    caller's payload other than [metrics] as it was, and the whole payload
    as it was when its [metrics] entry is missing, empty or not a mapping;
    when [metrics] is a non-empty mapping, that mapping ends up holding,
    besides its own entries, every top-level metric key of the type that
    has a non-null value. *)
Theorem normalizer_frame (kind : string) (norm : normalizer) (c : config)
        (payload meta : dict) (frag : fragment) (payload' : dict) :
  table_get NORMALIZERS kind = Some norm ->
  table_get CONFIGS kind = Some c ->
  norm payload meta = Ok (frag, payload') ->
  (forall k, k <> "metrics" -> dict_get payload' k = dict_get payload k)
  /\ (metrics_base payload = [] -> payload' = payload)
  /\ (metrics_base payload <> [] ->
      forall k, dict_lookup (metrics_base payload') k
                = overlaid (cfg_metric_keys c) payload k).
Proof.
  intros Hnorm Hcfg Hrun.
  destruct (normalizers_configs kind norm Hnorm) as [c' [Hc' Heq]].
  rewrite Hcfg in Hc'. injection Hc' as <-. rewrite Heq in Hrun.
  apply normalize_with_ok in Hrun as [loc [_ [-> _]]].
  pose proof (config_metric_keys _ _ Hcfg) as Hm.
  destruct (payload_after_frame (cfg_metric_keys c) payload Hm) as [Hother Hsame].
  split; [exact Hother | split; [exact Hsame |]].
  intros Hne k.
  destruct (raw_metrics_lookup (cfg_metric_keys c) payload Hm) as [_ Hl].
  rewrite <- Hl. f_equal.
  unfold metrics_base at 1, payload_after, raw_metrics_of.
  destruct (bind_raw_metrics_cases payload) as [[_ Hbase] | [-> [Hd _]]]; [contradiction |].
  destruct (overlay_alias_metrics (cfg_metric_keys c) (mkStore payload []) _ Hd) as [d' Hd'].
  unfold deref. rewrite Hd'. reflexivity.
Qed.

(** ** The dispatcher, on every input *)




(** ** The ingest routes *)

Lemma dispatched_fields (req : IngestRequest.t) (frag : fragment) (payload : dict) :
  dispatched req = Ok (frag, payload) ->
  record_type frag = IngestRequest.record_type req
  /\ provider_id frag = strip (IngestRequest.provider_id req)
  /\ provider_name frag = strip (IngestRequest.provider_name req)
  /\ In (severity frag) LEVELS.
Proof.
  unfold dispatched, dispatch_normalizer.
  destruct (table_get NORMALIZERS (IngestRequest.record_type req)) as [norm|] eqn:Hn;
    [| discriminate].
  destruct (normalizers_configs _ norm Hn) as [c [_ Heq]]. rewrite Heq. intros Hrun.
  apply normalize_with_ok in Hrun as [loc [_ [_ ->]]].
  cbn [record_type provider_id provider_name severity set_quality_flags].
  repeat split. apply normalize_severity_in_levels.
Qed.

(** X13.  [_process_ingest] either fails and leaves the session as it was,
    or appends exactly one row and returns it: the row takes the next
    identifier and time stamp, the requested record type, the request's
    provider id and name trimmed, and a severity among the six levels. *)
Theorem process_ingest_appends (req : IngestRequest.t) (db : Session) :
  match _process_ingest req db with
  | (Ok row, db') =>
      db' = db ++ [row]
      /\ NormalizedRecord.record_id row = uuid4 (List.length db)
      /\ NormalizedRecord.ingested_at row = now_iso (List.length db)
      /\ NormalizedRecord.record_type row = IngestRequest.record_type req
      /\ NormalizedRecord.provider_id row = strip (IngestRequest.provider_id req)
      /\ NormalizedRecord.provider_name row = strip (IngestRequest.provider_name req)
      /\ In (NormalizedRecord.severity row) LEVELS
  | (Raise _, db') => db' = db
  end.
Proof.
  rewrite process_ingest_dispatched.
  destruct (dispatched req) as [[frag payload]|exc] eqn:Hd; [| reflexivity].
  destruct (dispatched_fields _ _ _ Hd) as [Ht [Hi [Hn Hs]]].
  cbn [row_for NormalizedRecord.record_id NormalizedRecord.ingested_at
       NormalizedRecord.record_type NormalizedRecord.provider_id
       NormalizedRecord.provider_name NormalizedRecord.severity].
  repeat split; assumption.
Qed.

Lemma entries_accounting (records : list IngestRequest.t) (db : Session) :
  0 <= accepted records <= Z.of_nat (List.length records)
  /\ accepted records
     = Z.of_nat (List.length (filter BatchRecordResult.success (entries records db)))
  /\ List.length (session_after records db)
     = (List.length db + Z.to_nat (accepted records))%nat
  /\ firstn (List.length db) (session_after records db) = db
  /\ Forall (fun r => match BatchRecordResult.success r with
                      | true => BatchRecordResult.record r <> None
                                /\ BatchRecordResult.error r = None
                      | false => BatchRecordResult.record r = None
                                 /\ BatchRecordResult.error r <> None
                      end) (entries records db).
Proof.
  revert db. induction records as [|item rest IH]; intros db.
  - cbn [accepted entries session_after List.length filter].
    repeat split; first [lia | apply firstn_all | constructor].
  - cbn [accepted entries session_after List.length].
    destruct (dispatched item) as [[frag payload]|exc].
    + destruct (IH (db ++ [row_for (List.length db) frag payload]))
        as [Hr [Hc [Hl [Hp Hf]]]].
      cbn [filter success_entry BatchRecordResult.success List.length].
      repeat split; try lia.
      * rewrite Hl, length_app. cbn [List.length]. lia.
      * replace (List.length db)
          with (Nat.min (List.length db)
                        (List.length (db ++ [row_for (List.length db) frag payload])))
          at 1 by (rewrite length_app; cbn [List.length]; lia).
        rewrite <- firstn_firstn, Hp, firstn_app, Nat.sub_diag, firstn_all.
        cbn [firstn]. apply app_nil_r.
      * constructor; [cbn; split; [discriminate | reflexivity] | assumption].
    + destruct (IH db) as [Hr [Hc [Hl [Hp Hf]]]].
      cbn [filter failure_entry BatchRecordResult.success].
      repeat split; try lia; try assumption.
      constructor; [cbn; split; [reflexivity | discriminate] | assumption].
Qed.

(** X14.  For every batch, [ingest_batch] returns: the total is the number
    of items, successes and failures are non-negative and add up to it,
    there is one result per item, the success count is the number of
    success entries, each entry is either a success with a record and no
    error or a failure with an error and no record, and the session keeps
    its rows and gains one row per success. *)
Theorem ingest_batch_accounting (records : list IngestRequest.t) (db : Session) :
  let response := fst (ingest_batch records db) in
  let db' := snd (ingest_batch records db) in
  BatchIngestResponse.total_count response = Z.of_nat (List.length records)
  /\ BatchIngestResponse.success_count response + BatchIngestResponse.failed_count response
     = BatchIngestResponse.total_count response
  /\ 0 <= BatchIngestResponse.success_count response
  /\ 0 <= BatchIngestResponse.failed_count response
  /\ List.length (BatchIngestResponse.results response) = List.length records
  /\ BatchIngestResponse.success_count response
     = Z.of_nat (List.length (filter BatchRecordResult.success
                                     (BatchIngestResponse.results response)))
  /\ Forall (fun r => match BatchRecordResult.success r with
                      | true => BatchRecordResult.record r <> None
                                /\ BatchRecordResult.error r = None
                      | false => BatchRecordResult.record r = None
                                 /\ BatchRecordResult.error r <> None
                      end) (BatchIngestResponse.results response)
  /\ List.length db'
     = (List.length db + Z.to_nat (BatchIngestResponse.success_count response))%nat
  /\ firstn (List.length db) db' = db.
Proof.
  cbv zeta. rewrite ingest_batch_entries.
  cbn [fst snd BatchIngestResponse.total_count BatchIngestResponse.success_count
       BatchIngestResponse.failed_count BatchIngestResponse.results].
  destruct (entries_accounting records db) as [Hr [Hc [Hl [Hp Hf]]]].
  repeat split; try lia; try assumption.
  apply entries_length.
Qed.

Lemma entries_app (l1 l2 : list IngestRequest.t) (db : Session) :
  entries (l1 ++ l2) db = entries l1 db ++ entries l2 (session_after l1 db)
  /\ session_after (l1 ++ l2) db = session_after l2 (session_after l1 db)
  /\ accepted (l1 ++ l2) = accepted l1 + accepted l2.
Proof.
  revert db. induction l1 as [|item rest IH]; intros db.
  - cbn [app entries session_after accepted]. repeat split.
  - cbn [app entries session_after accepted].
    destruct (dispatched item) as [[frag payload]|exc].
    + destruct (IH (db ++ [row_for (List.length db) frag payload])) as [He [Hs Ha]].
      rewrite He, Hs, Ha. repeat split. lia.
    + destruct (IH db) as [He [Hs Ha]]. rewrite He, Hs, Ha. repeat split.
Qed.

(** X15.  A batch is processed item after item: ingesting the batch
    [l1 ++ l2] gives the results of [l1] followed by the results of [l2]
    ingested in the session [l1] leaves, the counts of the two added, and
    the session the second leaves. *)
Theorem ingest_batch_app (l1 l2 : list IngestRequest.t) (db : Session) :
  let first := ingest_batch l1 db in
  let second := ingest_batch l2 (snd first) in
  let whole := ingest_batch (l1 ++ l2) db in
  BatchIngestResponse.results (fst whole)
  = BatchIngestResponse.results (fst first) ++ BatchIngestResponse.results (fst second)
  /\ BatchIngestResponse.total_count (fst whole)
     = BatchIngestResponse.total_count (fst first)
       + BatchIngestResponse.total_count (fst second)
  /\ BatchIngestResponse.success_count (fst whole)
     = BatchIngestResponse.success_count (fst first)
       + BatchIngestResponse.success_count (fst second)
  /\ BatchIngestResponse.failed_count (fst whole)
     = BatchIngestResponse.failed_count (fst first)
       + BatchIngestResponse.failed_count (fst second)
  /\ snd whole = snd second.
Proof.
  cbv zeta. rewrite !ingest_batch_entries.
  cbn [fst snd BatchIngestResponse.total_count BatchIngestResponse.success_count
       BatchIngestResponse.failed_count BatchIngestResponse.results].
  destruct (entries_app l1 l2 db) as [He [Hs Ha]].
  rewrite He, Hs, Ha, length_app. repeat split; lia.
Qed.


Lemma find_app_fresh (f : NormalizedRecord.t -> bool) (db : Session) (row : NormalizedRecord.t) :
  find f (db ++ [row])
  = match find f db with
    | Some r => Some r
    | None => if f row then Some row else None
    end.
Proof.
  induction db as [|r db IH]; simpl; [reflexivity |].
  destruct (f r); [reflexivity | exact IH].
Qed.

Lemma find_absent (id : string) (db : Session) :
  (forall r, In r db -> NormalizedRecord.record_id r <> id) ->
  find (fun r => String.eqb (NormalizedRecord.record_id r) id) db = None.
Proof.
  induction db as [|r db IH]; intros Hall; simpl; [reflexivity |].
  destruct (String.eqb (NormalizedRecord.record_id r) id) eqn:E.
  - apply String.eqb_eq in E. exfalso. now apply (Hall r); [left |].
  - apply IH. intros r' Hr'. apply Hall. right. assumption.
Qed.

(** X17.  Reading back by identifier: once [_process_ingest] has written a
    row whose identifier no earlier row has, [get_record] on that
    identifier returns the row, and on every other identifier it answers
    as it did before the write; an identifier no row has gives the HTTP
    error 404. *)
Theorem get_record_after_ingest (req : IngestRequest.t) (db db' : Session)
        (row : NormalizedRecord.t) :
  (forall r, In r db -> NormalizedRecord.record_id r <> uuid4 (List.length db)) ->
  _process_ingest req db = (Ok row, db') ->
  get_record (NormalizedRecord.record_id row) db' = Returned (_record_to_schema row)
  /\ (forall id, id <> NormalizedRecord.record_id row -> get_record id db' = get_record id db)
  /\ (forall id, (forall r, In r db' -> NormalizedRecord.record_id r <> id) ->
                 get_record id db' = HTTPException 404 "Record not found").
Proof.
  intros Hfresh Hrun. rewrite process_ingest_dispatched in Hrun.
  destruct (dispatched req) as [[frag payload]|exc]; [| discriminate].
  injection Hrun as <- <-.
  set (row := row_for (List.length db) frag payload).
  assert (Hid : NormalizedRecord.record_id row = uuid4 (List.length db)) by reflexivity.
  unfold get_record. split; [| split].
  - rewrite find_app_fresh, find_absent by (rewrite Hid; exact Hfresh).
    now rewrite String.eqb_refl.
  - intros id Hne. rewrite find_app_fresh.
    destruct (find _ db); [reflexivity |].
    destruct (String.eqb (NormalizedRecord.record_id row) id) eqn:E; [| reflexivity].
    apply String.eqb_eq in E. congruence.
  - intros id Hnone. now rewrite find_absent.
Qed.

(** ** [parse_timestamp] and whitespace *)

(** X18.  [parse_timestamp] reads a string up to surrounding whitespace:
    whitespace added before and after a string changes nothing; and it
    never returns the empty string. *)
Theorem parse_timestamp_whitespace :
  (forall pre s post,
      all_chars is_space pre = true -> all_chars is_space post = true ->
      parse_timestamp (VStr (pre +++ s +++ post)) = parse_timestamp (VStr s))
  /\ (forall v, parse_timestamp v <> Some EmptyString).
Proof.
  split; [| apply parse_timestamp_nonempty].
  intros pre s post Hpre Hpost.
  change (parse_timestamp (VStr (pre +++ s +++ post)))
    with (try_formats (strip (pre +++ s +++ post)) formats).
  change (parse_timestamp (VStr s)) with (try_formats (strip s) formats).
  now rewrite strip_padding.
Qed.

(** ** Payloads without coordinates *)

Lemma build_location_coordinates (payload : dict) (loc : location) :
  _build_location payload = Ok loc ->
  extract_coordinates payload = Ok (loc_lat loc, loc_lon loc).
Proof.
  unfold _build_location.
  destruct (extract_coordinates payload) as [[lat lon]|ex]; simpl; [| discriminate].
  match goal with
  | |- (let '(loc_name, elevation_ft) := ?p in _) = _ -> _ => destruct p as [n el]
  end.
  match goal with
  | |- context [coerce_int ?x] => destruct (coerce_int x) as [e|ex]
  end; simpl; [| discriminate].
  intros [= <-]. reflexivity.
Qed.

(** X19.  A payload with none of the four top-level coordinate keys and no
    mapping under [location] or [coordinates] gives, under every record
    type, a record with null lat and lon and the [missing_coordinates]
    flag. *)
Theorem missing_coordinates_without_fields (kind : string) (norm : normalizer)
        (payload meta : dict) (frag : fragment) (payload' : dict) :
  table_get NORMALIZERS kind = Some norm ->
  norm payload meta = Ok (frag, payload') ->
  (forall k, In k COORDINATE_KEYS -> dict_get payload k = VNone) ->
  is_dict (dict_get payload "location" orelse dict_get payload "coordinates") = false ->
  loc_lat (frag_location frag) = None
  /\ loc_lon (frag_location frag) = None
  /\ In "missing_coordinates" (quality_flags frag).
Proof.
  intros Hnorm Hrun Hkeys Hblock.
  destruct (normalizers_configs kind norm Hnorm) as [c [Hcfg Heq]].
  rewrite Heq in Hrun.
  apply normalize_with_ok in Hrun as [loc [Hloc [_ Hfrag]]].
  cbv zeta in Hfrag. rewrite merged_flags in Hfrag.
  destruct (payload_after_frame (cfg_metric_keys c) payload (config_metric_keys _ _ Hcfg))
    as [Hother _].
  apply build_location_coordinates in Hloc.
  rewrite extract_coordinates_none in Hloc.
  - injection Hloc as Hlat Hlon.
    match type of Hfrag with
    | frag = set_quality_flags ?r (base_flags ?r ++ flag_if ?b _) =>
        destruct (flags_membership r b) as [Hc _]
    end.
    subst frag. cbn [frag_location quality_flags set_quality_flags] in *.
    rewrite <- Hlat, <- Hlon. repeat split.
    apply Hc. cbn [frag_location]. rewrite <- Hlat. reflexivity.
  - rewrite !Hother by discriminate.
    rewrite !Hkeys by (unfold COORDINATE_KEYS; simpl; auto). reflexivity.
  - rewrite !Hother by discriminate. exact Hblock.
Qed.

End Properties.

(** * Sample runs

    The statements above at concrete inputs, on the small runtime. *)

Section SampleRuns.

#[local] Existing Instance Sample.runtime.

(** The weather payload of the test suite with a list-valued metric. *)
Lemma quality_flags_in_order_witness :
  exists frag payload',
    normalize_weather icy_payload PROVIDER = Ok (frag, payload')
    /\ quality_flags frag = ["missing_coordinates"; "unknown_severity"; "invalid_metric_type"]
    /\ NoDup (quality_flags frag).
Proof.
  eexists. eexists. split; [vm_compute; reflexivity |].
  assert (Hn : table_get NORMALIZERS "weather" = Some normalize_weather) by reflexivity.
  assert (Hc : table_get CONFIGS "weather" = Some weather_config) by reflexivity.
  match goal with
  | |- quality_flags ?F = _ /\ _ =>
      pose proof (proj1 quality_flags_in_order "weather" normalize_weather weather_config
                        icy_payload PROVIDER F _ Hn Hc ltac:(vm_compute; reflexivity)) as H
  end.
  vm_compute in H. exact H.
Defined.

Lemma metrics_overlay_then_validate_witness :
  exists frag payload',
    normalize_weather icy_payload PROVIDER = Ok (frag, payload')
    /\ dict_lookup (metrics frag) "wind_speed_mph" = Some (VInt 25)
    /\ dict_lookup (metrics frag) "complex_val" = None
    /\ In "invalid_metric_type" (quality_flags frag).
Proof.
  eexists. eexists. split; [vm_compute; reflexivity |].
  assert (Hn : table_get NORMALIZERS "weather" = Some normalize_weather) by reflexivity.
  assert (Hc : table_get CONFIGS "weather" = Some weather_config) by reflexivity.
  assert (Hwf : dict_wf (metrics_base icy_payload)).
  { repeat constructor; simpl; intuition discriminate. }
  match goal with
  | |- dict_lookup (metrics ?F) _ = _ /\ _ =>
      destruct (metrics_overlay_then_validate "weather" normalize_weather weather_config
                  icy_payload PROVIDER F _ Hn Hc Hwf ltac:(vm_compute; reflexivity))
        as [Hlook [Hflag _]]
  end.
  split; [| split].
  - rewrite Hlook. vm_compute. reflexivity.
  - rewrite Hlook. vm_compute. reflexivity.
  - apply Hflag. exists "complex_val", (VList [VInt 1; VInt 2; VInt 3]).
    split; vm_compute; reflexivity.
Defined.

(** A boolean is parsed as an epoch. *)
Lemma parse_timestamp_bool_counterexample :
  parse_timestamp (VBool true) = Some "1970-01-01T00:00:01+00:00".
Proof. vm_compute. reflexivity. Qed.

(** The fifth format is the first to parse a date and time separated by a
    space. *)
Lemma parse_timestamp_by_type_witness :
  strptime (strip " 2024-01-15 12:00:00 ") "%Y-%m-%d %H:%M:%S"
  = Some (mkDatetime 2024 1 15 12 0 0 0 None)
  /\ parse_timestamp (VStr " 2024-01-15 12:00:00 ") = Some "2024-01-15T12:00:00+00:00".
Proof.
  assert (Hfmt : strptime (strip " 2024-01-15 12:00:00 ") "%Y-%m-%d %H:%M:%S"
                 = Some (mkDatetime 2024 1 15 12 0 0 0 None))
    by (vm_compute; reflexivity).
  split; [exact Hfmt |].
  rewrite (proj1 (proj2 (proj2 (proj2 (proj2 (proj2 (proj2 (proj2 (proj2
             parse_timestamp_by_type))))))))
             " 2024-01-15 12:00:00 "
             [ "%Y-%m-%dT%H:%M:%SZ"; "%Y-%m-%dT%H:%M:%S%z"; "%Y-%m-%dT%H:%M:%S.%f%z";
               "%Y-%m-%dT%H:%M:%S.%fZ" ]
             "%Y-%m-%d %H:%M:%S" ["%Y-%m-%d"]
             (mkDatetime 2024 1 15 12 0 0 0 None) eq_refl).
  - vm_compute. reflexivity.
  - intros f [<- | [<- | [<- | [<- | []]]]]; vm_compute; reflexivity.
  - exact Hfmt.
Defined.

(** The example of the specification: a complete bulletin has no flag. *)
Example complete_bulletin :
  exists frag payload',
    normalize_bulletin
      [ ("danger", VStr "3"); ("issued_at", VStr "2024-01-01T00:00:00Z");
        ("summary", VStr "Test");
        ("lat", VFloat (binary_normalize 53 1024 40 0 false));
        ("lon", VFloat (binary_normalize 53 1024 (-105) 0 false)) ]
      PROVIDER
    = Ok (frag, payload')
    /\ severity frag = "considerable"
    /\ event_time frag = Some "2024-01-01T00:00:00+00:00"
    /\ loc_lat (frag_location frag) = Some (binary_normalize 53 1024 40 0 false)
    /\ loc_lon (frag_location frag) = Some (binary_normalize 53 1024 (-105) 0 false)
    /\ quality_flags frag = [].
Proof.
  eexists. eexists. split; [vm_compute; reflexivity |].
  repeat split.
Qed.



(** The partial-failure batch of the test suite, with a third item. *)
Lemma batch_isolates_unsupported_witness :
  let response := fst (ingest_batch sample_batch []) in
  BatchIngestResponse.total_count response = Z.of_nat (List.length sample_batch)
  /\ BatchIngestResponse.failed_count response = 1
  /\ BatchIngestResponse.success_count response = Z.of_nat (List.length sample_batch) - 1
  /\ nth_error (BatchIngestResponse.results response) 1
     = Some (failure_entry (unsupported_message "invalid_type"))
  /\ remove_nth 1 (BatchIngestResponse.results response)
     = BatchIngestResponse.results (fst (ingest_batch (remove_nth 1 sample_batch) [])).
Proof.
  assert (Hothers : forall i req, i <> 1%nat -> nth_error sample_batch i = Some req ->
                                  exists out, dispatched req = Ok out).
  { intros [|[|[|i]]] req Hne Hi; try congruence.
    - injection Hi as <-. eexists. vm_compute. reflexivity.
    - injection Hi as <-. eexists. vm_compute. reflexivity.
    - destruct i; discriminate. }
  assert (Hbad : table_get NORMALIZERS "invalid_type" = None) by (vm_compute; reflexivity).
  destruct (batch_isolates_unsupported sample_batch [] 1
              (IngestRequest.mk "prov-bad" "Bad Provider" "invalid_type" [])
              eq_refl Hbad Hothers)
    as [Htotal [Hfailed [Hsuccess [_ [Hk [_ [Hrem _]]]]]]].
  cbv zeta.
  exact (conj Htotal (conj Hfailed (conj Hsuccess (conj Hk Hrem)))).
Defined.

(** ** The further properties at concrete inputs *)

Lemma normalize_severity_insensitive_witness :
  normalize_severity (Some "HIGH") = normalize_severity (Some "high")
  /\ normalize_severity (Some ("  " +++ "Considerable" +++ " "))
     = normalize_severity (Some "Considerable").
Proof.
  split.
  - apply (proj1 normalize_severity_insensitive). vm_compute. reflexivity.
  - apply (proj2 normalize_severity_insensitive); vm_compute; reflexivity.
Defined.

Lemma validate_metrics_partition_witness :
  dict_wf (metrics_base icy_payload)
  /\ validate_metrics (fst (validate_metrics (metrics_base icy_payload)))
     = (fst (validate_metrics (metrics_base icy_payload)), []).
Proof.
  assert (Hwf : dict_wf (metrics_base icy_payload)).
  { repeat constructor; simpl; intuition discriminate. }
  split; [exact Hwf |].
  exact (proj2 (proj2 (validate_metrics_partition _ Hwf))).
Defined.

Lemma top_level_coordinates_first_witness :
  extract_coordinates [("latitude", VInt 0); ("lon", VInt (-78))]
  = extract_coordinates equator_payload.
Proof.
  refine (proj2 (top_level_coordinates_first equator_payload
                   [("latitude", VInt 0); ("lon", VInt (-78))] _ _)).
  - vm_compute. reflexivity.
  - intros k [<- | [<- | [<- | [<- | []]]]]; vm_compute; reflexivity.
Defined.

Lemma coordinates_absent_witness :
  extract_coordinates [("location", VStr "Teton Pass")] = Ok (None, None).
Proof.
  apply (proj1 (coordinates_absent _)); vm_compute; reflexivity.
Defined.

Lemma location_name_rule_witness :
  _build_location teton_payload = Ok (mkLocation (Some "Teton Pass") None None (Some 8431))
  /\ "Teton Pass" <> EmptyString
  /\ strip "Teton Pass" = "Teton Pass".
Proof.
  assert (H : _build_location teton_payload
              = Ok (mkLocation (Some "Teton Pass") None None (Some 8431)))
    by (vm_compute; reflexivity).
  split; [exact H |].
  exact (proj1 (location_name_rule _ _ H) "Teton Pass" eq_refl).
Defined.

Lemma first_truthy_selects_witness :
  first_truthy stale_payload ["issued_at"; "timestamp"; "valid_time"; "date"]
  = dict_get stale_payload "timestamp".
Proof.
  apply (proj1 (first_truthy_selects stale_payload _)
               ["issued_at"] "timestamp" ["valid_time"; "date"] eq_refl).
  - intros k [<- | []]. vm_compute. reflexivity.
  - vm_compute. reflexivity.
Defined.

Lemma fragment_well_formed_witness :
  exists frag payload',
    normalize_weather icy_payload PROVIDER = Ok (frag, payload')
    /\ record_type frag = "weather"
    /\ In (severity frag) LEVELS.
Proof.
  eexists. eexists. split; [vm_compute; reflexivity |].
  assert (Hn : table_get NORMALIZERS "weather" = Some normalize_weather) by reflexivity.
  match goal with
  | |- record_type ?F = _ /\ _ =>
      destruct (fragment_well_formed "weather" normalize_weather icy_payload PROVIDER F _
                  Hn ltac:(vm_compute; reflexivity)) as [H1 [H2 _]]
  end.
  split; [exact H1 | exact H2].
Defined.

Lemma flags_iff_conditions_witness :
  exists frag payload',
    normalize_weather icy_payload PROVIDER = Ok (frag, payload')
    /\ In "missing_coordinates" (quality_flags frag)
    /\ In "unknown_severity" (quality_flags frag)
    /\ ~ In "empty_summary" (quality_flags frag).
Proof.
  eexists. eexists. split; [vm_compute; reflexivity |].
  assert (Hn : table_get NORMALIZERS "weather" = Some normalize_weather) by reflexivity.
  match goal with
  | |- In _ (quality_flags ?F) /\ _ =>
      destruct (flags_iff_conditions "weather" normalize_weather icy_payload PROVIDER F _
                  Hn ltac:(vm_compute; reflexivity)) as [Hc [_ [Hs He]]]
  end.
  split; [| split].
  - apply Hc. left. reflexivity.
  - apply Hs. reflexivity.
  - intros H. apply He in H. discriminate H.
Defined.

Lemma normalizer_frame_witness :
  exists frag payload',
    normalize_weather icy_payload PROVIDER = Ok (frag, payload')
    /\ dict_get payload' "timestamp" = dict_get icy_payload "timestamp"
    /\ dict_lookup (metrics_base payload') "wind_speed_mph" = Some (VInt 25).
Proof.
  eexists. eexists. split; [vm_compute; reflexivity |].
  assert (Hn : table_get NORMALIZERS "weather" = Some normalize_weather) by reflexivity.
  assert (Hc : table_get CONFIGS "weather" = Some weather_config) by reflexivity.
  match goal with
  | |- dict_get ?P _ = _ /\ _ =>
      destruct (normalizer_frame "weather" normalize_weather weather_config icy_payload
                  PROVIDER _ P Hn Hc ltac:(vm_compute; reflexivity)) as [Ho [_ Hm]]
  end.
  split.
  - apply Ho. discriminate.
  - rewrite Hm; [vm_compute; reflexivity |].
    intros H. vm_compute in H. discriminate H.
Defined.


Lemma missing_timestamp_iff_witness :
  exists frag payload',
    normalize_bulletin [("issued_at", VStr "tomorrow")] PROVIDER = Ok (frag, payload')
    /\ In "missing_timestamp" (quality_flags frag).
Proof.
  eexists. eexists. split; [vm_compute; reflexivity |].
  assert (Hn : table_get NORMALIZERS "bulletin" = Some normalize_bulletin) by reflexivity.
  assert (Hc : table_get CONFIGS "bulletin" = Some bulletin_config) by reflexivity.
  match goal with
  | |- In _ (quality_flags ?F) =>
      apply (proj2 (missing_timestamp_iff "bulletin" normalize_bulletin bulletin_config
                      [("issued_at", VStr "tomorrow")] PROVIDER F _ Hn Hc
                      ltac:(vm_compute; reflexivity)))
  end.
  vm_compute. reflexivity.
Defined.

Lemma get_record_after_ingest_witness :
  exists row db',
    _process_ingest high_danger [] = (Ok row, db')
    /\ get_record (NormalizedRecord.record_id row) db' = Returned (_record_to_schema row).
Proof.
  eexists. eexists. split; [vm_compute; reflexivity |].
  match goal with
  | |- get_record (NormalizedRecord.record_id ?R) ?D = _ =>
      assert (Hrun : _process_ingest high_danger [] = (Ok R, D)) by (vm_compute; reflexivity);
      pose proof (get_record_after_ingest high_danger [] D R
                    (fun r (H : In r []) => match H with end) Hrun) as Hthm
  end.
  destruct Hthm as [Hread _]. exact Hread.
Defined.

Lemma parse_timestamp_whitespace_witness :
  parse_timestamp (VStr ("  " +++ "2024-01-15" +++ " ")) = parse_timestamp (VStr "2024-01-15").
Proof.
  apply (proj1 parse_timestamp_whitespace); vm_compute; reflexivity.
Defined.

Lemma missing_coordinates_without_fields_witness :
  exists frag payload',
    normalize_bulletin [("location", VStr "Teton Pass")] PROVIDER = Ok (frag, payload')
    /\ loc_lat (frag_location frag) = None
    /\ loc_lon (frag_location frag) = None
    /\ In "missing_coordinates" (quality_flags frag).
Proof.
  eexists. eexists. split; [vm_compute; reflexivity |].
  assert (Hn : table_get NORMALIZERS "bulletin" = Some normalize_bulletin) by reflexivity.
  match goal with
  | |- loc_lat (frag_location ?F) = _ /\ _ =>
      apply (missing_coordinates_without_fields "bulletin" normalize_bulletin
               [("location", VStr "Teton Pass")] PROVIDER F _ Hn
               ltac:(vm_compute; reflexivity))
  end.
  - intros k [<- | [<- | [<- | [<- | []]]]]; vm_compute; reflexivity.
  - vm_compute. reflexivity.
Defined.

End SampleRuns.
